(** * core-js-dates: the date utilities of [src/core-js-dates-tasks.js]

    A shallow embedding of the functions of the module and of the part of
    the ECMAScript [Date] object they call.

    Conventions of the embedding.
    - A time value is an integer number of milliseconds since the epoch, or
      NaN; it is a [Number], i.e. [option Z] with [None] for NaN.  A Date
      object holds a time value of at most [ES.maxTime] in magnitude, or NaN
      (an Invalid Date).
    - The abstract operations of ECMA-262 (Day, YearFromTime, MakeDay,
      TimeClip, ...) are written out in module [ES] on integers.
    - The host environment is the local time zone adjustment [LocalTZA], a
      constant number of milliseconds (UTC is 0; daylight-saving transitions
      are not modelled), and the string parser [DateParse].  Both are
      variables of the sections below, so every property is proved for every
      offset and every parser.
    - [getCountDaysOnPeriod] computes in binary64, as JavaScript does: its
      result is a primitive float.  The quotient under the ceiling of
      [getWeekNumberByDate] is an exact rational. *)

From Stdlib Require Import ZArith Lia Bool List String Ascii DecimalString.
From Stdlib Require Import QArith Qround.
From Stdlib Require Import Uint63 Floats.
Import ListNotations.
Local Open Scope string_scope.
Local Open Scope Z_scope.

(** ** JavaScript numbers that hold an integer or NaN *)

Definition Number : Type := option Z.
Definition NaN : Number := None.

Definition num_add (a b : Number) : Number :=
  match a, b with
  | Some x, Some y => Some (x + y)
  | _, _ => NaN
  end.

Definition num_sub (a b : Number) : Number :=
  match a, b with
  | Some x, Some y => Some (x - y)
  | _, _ => NaN
  end.

(** [a % m] for a non-zero literal [m]: the remainder takes the sign of the
    dividend. *)
Definition num_rem (a : Number) (m : Z) : Number :=
  match a with
  | Some x => Some (Z.rem x m)
  | None => NaN
  end.

(** Comparisons: every comparison with NaN is false, [!==] is its negation. *)
Definition num_lt (a b : Number) : bool :=
  match a, b with
  | Some x, Some y => x <? y
  | _, _ => false
  end.

Definition num_gt (a b : Number) : bool := num_lt b a.

Definition num_le (a b : Number) : bool :=
  match a, b with
  | Some x, Some y => x <=? y
  | _, _ => false
  end.

Definition num_ge (a b : Number) : bool := num_le b a.

Definition num_eq (a b : Number) : bool :=
  match a, b with
  | Some x, Some y => x =? y
  | _, _ => false
  end.

Definition num_neq (a b : Number) : bool := negb (num_eq a b).

(** Number::toString for an integer or NaN. *)
Definition Z_toString (z : Z) : string := NilZero.string_of_int (Z.to_int z).

Definition num_toString (a : Number) : string :=
  match a with
  | Some x => Z_toString x
  | None => "NaN"
  end.

(** The binary64 number that holds an integer time value.  A time value is
    at most 8.64e15 < 2^53 in magnitude, so the conversion is exact. *)
Definition float_of_time (t : Z) : float :=
  if t <? 0 then PrimFloat.opp (PrimFloat.of_uint63 (Uint63.of_Z (- t)))
  else PrimFloat.of_uint63 (Uint63.of_Z t).

(** ** ECMA-262, "Time Values and Time Range" and the Date abstract operations *)

Module ES.

Definition HoursPerDay : Z := 24.
Definition MinutesPerHour : Z := 60.
Definition SecondsPerMinute : Z := 60.
Definition msPerSecond : Z := 1000.
Definition msPerMinute : Z := 60000.
Definition msPerHour : Z := 3600000.
Definition msPerDay : Z := 86400000.

(** The largest magnitude of a time value: 100,000,000 days. *)
Definition maxTime : Z := 8640000000000000.

Definition Day (t : Z) : Z := t / msPerDay.
Definition TimeWithinDay (t : Z) : Z := t mod msPerDay.

Definition DaysInYear (y : Z) : Z :=
  if negb (y mod 4 =? 0) then 365
  else if negb (y mod 100 =? 0) then 366
  else if negb (y mod 400 =? 0) then 365
  else 366.

Definition DayFromYear (y : Z) : Z :=
  365 * (y - 1970) + (y - 1969) / 4 - (y - 1901) / 100 + (y - 1601) / 400.

Definition TimeFromYear (y : Z) : Z := msPerDay * DayFromYear y.

(** The largest year [y] with [DayFromYear y <= d] ([YearFromDay_spec]): a
    first guess from the mean length of the Gregorian year, 146097/400 days,
    moved by at most one year. *)
Definition YearFromDay (d : Z) : Z :=
  let y0 := 1970 + (400 * d) / 146097 in
  if d <? DayFromYear y0 then y0 - 1
  else if DayFromYear (y0 + 1) <=? d then y0 + 1
  else y0.

Definition YearFromTime (t : Z) : Z := YearFromDay (Day t).

Definition InLeapYear (t : Z) : Z :=
  if DaysInYear (YearFromTime t) =? 366 then 1 else 0.

Definition DayWithinYear (t : Z) : Z := Day t - DayFromYear (YearFromTime t).

Definition MonthFromTime (t : Z) : Z :=
  let d := DayWithinYear t in
  let l := InLeapYear t in
  if d <? 31 then 0
  else if d <? 59 + l then 1
  else if d <? 90 + l then 2
  else if d <? 120 + l then 3
  else if d <? 151 + l then 4
  else if d <? 181 + l then 5
  else if d <? 212 + l then 6
  else if d <? 243 + l then 7
  else if d <? 273 + l then 8
  else if d <? 304 + l then 9
  else if d <? 334 + l then 10
  else 11.

Definition DateFromTime (t : Z) : Z :=
  let d := DayWithinYear t in
  let l := InLeapYear t in
  match MonthFromTime t with
  | 0 => d + 1
  | 1 => d - 30
  | 2 => d - 58 - l
  | 3 => d - 89 - l
  | 4 => d - 119 - l
  | 5 => d - 150 - l
  | 6 => d - 180 - l
  | 7 => d - 211 - l
  | 8 => d - 242 - l
  | 9 => d - 272 - l
  | 10 => d - 303 - l
  | _ => d - 333 - l
  end.

Definition WeekDay (t : Z) : Z := (Day t + 4) mod 7.

Definition HourFromTime (t : Z) : Z := (t / msPerHour) mod HoursPerDay.
Definition MinFromTime (t : Z) : Z := (t / msPerMinute) mod MinutesPerHour.
Definition SecFromTime (t : Z) : Z := (t / msPerSecond) mod SecondsPerMinute.
Definition msFromTime (t : Z) : Z := t mod msPerSecond.

Definition MakeTime (hour min sec ms : Z) : Z :=
  hour * msPerHour + min * msPerMinute + sec * msPerSecond + ms.

(** Days from the start of a year to the first of month [mn] (0 to 11) in a
    year of [diy] days. *)
Definition DayInYearOfMonth (mn diy : Z) : Z :=
  let l := if diy =? 366 then 1 else 0 in
  match mn with
  | 0 => 0
  | 1 => 31
  | 2 => 59 + l
  | 3 => 90 + l
  | 4 => 120 + l
  | 5 => 151 + l
  | 6 => 181 + l
  | 7 => 212 + l
  | 8 => 243 + l
  | 9 => 273 + l
  | 10 => 304 + l
  | _ => 334 + l
  end.

(** MakeDay: the day number of the first of month [mn] of year [ym], plus
    [date - 1]. *)
Definition MakeDay (year month date : Z) : Z :=
  let ym := year + month / 12 in
  let mn := month mod 12 in
  DayFromYear ym + DayInYearOfMonth mn (DaysInYear ym) + date - 1.

Definition MakeDate (day time : Z) : Z := day * msPerDay + time.

Definition TimeClip (t : Z) : Number :=
  if Z.abs t >? maxTime then NaN else Some t.

(** Days of month [m] (1 to 12) of year [y]. *)
Definition DaysInMonth (y m : Z) : Z :=
  match m with
  | 2 => if DaysInYear y =? 366 then 29 else 28
  | 4 | 6 | 9 | 11 => 30
  | _ => 31
  end.

End ES.

(** ** The ISO date-time forms of ECMA-262's Date Time String Format

    [YYYY-MM-DD], [YYYY-MM-DDTHH:mm:ssZ] and [YYYY-MM-DDTHH:mm:ss.sssZ], the
    forms of the examples in the module's comments; every conforming
    [Date.parse] reads them this way.  Other strings are not recognised
    here. *)

Module ISO.

Definition digit (c : ascii) : option Z :=
  let n := Z.of_N (N_of_ascii c) in
  if (48 <=? n) && (n <=? 57) then Some (n - 48) else None.

Fixpoint digits (n : nat) (cs : list ascii) (acc : Z) : option (Z * list ascii) :=
  match n with
  | O => Some (acc, cs)
  | S n' =>
      match cs with
      | c :: cs' =>
          match digit c with
          | Some v => digits n' cs' (10 * acc + v)
          | None => None
          end
      | [] => None
      end
  end.

Definition expect (c : ascii) (cs : list ascii) : option (list ascii) :=
  match cs with
  | c' :: cs' => if Ascii.eqb c c' then Some cs' else None
  | [] => None
  end.

Definition bind {A B : Type} (o : option A) (f : A -> option B) : option B :=
  match o with
  | Some a => f a
  | None => None
  end.

Notation "x <- a ;; b" := (bind a (fun x => b))
  (at level 61, a at next level, right associativity).
Notation "' p <- a ;; b" := (bind a (fun x => let 'p := x in b))
  (at level 61, p pattern, a at next level, right associativity).

(** [YYYY-MM-DD]: the day number of a date of the calendar. *)
Definition parse_date (cs : list ascii) : option (Z * list ascii) :=
  '(y, cs) <- digits 4 cs 0 ;;
  cs <- expect "-" cs ;;
  '(m, cs) <- digits 2 cs 0 ;;
  cs <- expect "-" cs ;;
  '(d, cs) <- digits 2 cs 0 ;;
  if (1 <=? m) && (m <=? 12) && (1 <=? d) && (d <=? ES.DaysInMonth y m)
  then Some (ES.MakeDay y (m - 1) d, cs)
  else None.

(** [.sss], or nothing. *)
Definition parse_millis (cs : list ascii) : option (Z * list ascii) :=
  match cs with
  | "."%char :: cs' => digits 3 cs' 0
  | _ => Some (0, cs)
  end.

(** [HH:mm:ss] with optional milliseconds: the time within the day. *)
Definition parse_time (cs : list ascii) : option (Z * list ascii) :=
  '(h, cs) <- digits 2 cs 0 ;;
  cs <- expect ":" cs ;;
  '(mi, cs) <- digits 2 cs 0 ;;
  cs <- expect ":" cs ;;
  '(s, cs) <- digits 2 cs 0 ;;
  '(ms, cs) <- parse_millis cs ;;
  if (h <=? 23) && (mi <=? 59) && (s <=? 59)
  then Some (ES.MakeTime h mi s ms, cs)
  else None.

Definition parse (s : string) : Number :=
  '(day, cs) <- parse_date (list_ascii_of_string s) ;;
  match cs with
  | [] => Some (ES.MakeDate day 0)
  | _ =>
      cs <- expect "T" cs ;;
      '(time, cs) <- parse_time cs ;;
      cs <- expect "Z" cs ;;
      match cs with
      | [] => Some (ES.MakeDate day time)
      | _ => None
      end
  end.

End ISO.

(** ** Completions of a call: a value, or a thrown [Error]

    A computation of [JS St A] runs on a store of type [St] (whatever the
    program can reach: globals, the heap) and ends with a completion and the
    store it leaves. *)

Record JSError : Type := Error { message : string }.

Inductive Completion (A : Type) : Type :=
| Normal (a : A)
| Throw (e : JSError).

Arguments Normal {A} a.
Arguments Throw {A} e.

Definition JS (St A : Type) : Type := St -> Completion A * St.

Definition js_throw {St A : Type} (e : JSError) : JS St A := fun s => (Throw e, s).

(** ** Date objects *)

Module JSDate.

(** A Date object is its [[DateValue]] slot: a time value within
    [ES.maxTime] of the epoch, or NaN (an Invalid Date). *)
Record Date : Type := mkDate { DateValue : Number }.

Section Host.

(** The local time zone adjustment, in milliseconds. *)
Variable LocalTZA : Z.
(** [Date.parse]: the time value a string denotes, NaN for an unparseable one. *)
Variable DateParse : string -> Number.

Definition LocalTime (t : Z) : Z := t + LocalTZA.
Definition UTC (t : Z) : Z := t - LocalTZA.

(** [new Date(number)] *)
Definition new_number (n : Number) : Date :=
  mkDate (match n with
          | Some tv => ES.TimeClip tv
          | None => NaN
          end).

(** [new Date(string)] *)
Definition new_string (s : string) : Date := new_number (DateParse s).

(** [new Date(date)] for a Date object: a copy of its time value. *)
Definition new_date (d : Date) : Date := new_number (DateValue d).

(** [new Date(year, month, date)]: midnight of local time; a year from 0 to
    99 stands for 1900 + year. *)
Definition new_fields (year : Number) (month date : Z) : Date :=
  mkDate (match year with
          | Some y =>
              let yr := if (0 <=? y) && (y <=? 99) then 1900 + y else y in
              let finalDate :=
                ES.MakeDate (ES.MakeDay yr month date) (ES.MakeTime 0 0 0 0) in
              ES.TimeClip (UTC finalDate)
          | None => NaN
          end).

Definition local_field (f : Z -> Z) (d : Date) : Number :=
  match DateValue d with
  | Some t => Some (f (LocalTime t))
  | None => NaN
  end.

Definition utc_field (f : Z -> Z) (d : Date) : Number :=
  match DateValue d with
  | Some t => Some (f t)
  | None => NaN
  end.

Definition getTime (d : Date) : Number := DateValue d.
Definition valueOf (d : Date) : Number := DateValue d.

Definition getFullYear : Date -> Number := local_field ES.YearFromTime.
Definition getMonth : Date -> Number := local_field ES.MonthFromTime.
Definition getDate : Date -> Number := local_field ES.DateFromTime.
Definition getDay : Date -> Number := local_field ES.WeekDay.
Definition getHours : Date -> Number := local_field ES.HourFromTime.
Definition getMinutes : Date -> Number := local_field ES.MinFromTime.
Definition getSeconds : Date -> Number := local_field ES.SecFromTime.

Definition getUTCMonth : Date -> Number := utc_field ES.MonthFromTime.
Definition getUTCDate : Date -> Number := utc_field ES.DateFromTime.
Definition getUTCDay : Date -> Number := utc_field ES.WeekDay.
Definition getUTCHours : Date -> Number := utc_field ES.HourFromTime.
Definition getUTCMinutes : Date -> Number := utc_field ES.MinFromTime.
Definition getUTCSeconds : Date -> Number := utc_field ES.SecFromTime.

(** [d.setDate(dt)]: the Date object after the call. *)
Definition setDate (d : Date) (dt : Number) : Date :=
  mkDate (match DateValue d, dt with
          | Some t, Some dt =>
              let t := LocalTime t in
              let newDate :=
                ES.MakeDate (ES.MakeDay (ES.YearFromTime t) (ES.MonthFromTime t) dt)
                            (ES.TimeWithinDay t) in
              ES.TimeClip (UTC newDate)
          | _, _ => NaN
          end).

End Host.

End JSDate.

(** ** The functions of [core-js-dates-tasks.js] *)

Record DatePeriod : Type := mkPeriod { period_start : string; period_end : string }.

Section Tasks.

Variable LocalTZA : Z.
Variable DateParse : string -> Number.

Definition dateToTimestamp (date : string) : Number :=
  let date1 := JSDate.new_string DateParse date in
  let date2 := JSDate.new_number (Some 0) in
  num_sub (JSDate.valueOf date1) (JSDate.valueOf date2).

Definition getTime (date : JSDate.Date) : string :=
  let result := "" in
  let result :=
    if num_lt (JSDate.getHours LocalTZA date) (Some 10) then result ++ "0" else result in
  let result := (result ++ num_toString (JSDate.getHours LocalTZA date)) ++ ":" in
  let result :=
    if num_lt (JSDate.getMinutes LocalTZA date) (Some 10) then result ++ "0" else result in
  let result := (result ++ num_toString (JSDate.getMinutes LocalTZA date)) ++ ":" in
  let result :=
    if num_lt (JSDate.getSeconds LocalTZA date) (Some 10) then result ++ "0" else result in
  let result := result ++ num_toString (JSDate.getSeconds LocalTZA date) in
  result.

(** [None] is [undefined]: no element at the index. *)
Definition getDayName (date : string) : option string :=
  let days := JSDate.new_string DateParse date in
  let getDays := JSDate.getUTCDay days in
  let dayNames :=
    ["Sunday"; "Monday"; "Tuesday"; "Wednesday"; "Thursday"; "Friday"; "Saturday"] in
  match getDays with
  | Some i => nth_error dayNames (Z.to_nat i)
  | None => None
  end.

Definition getNextFriday (date : JSDate.Date) : JSDate.Date :=
  let data := JSDate.new_date date in
  let currData := JSDate.getDay LocalTZA data in
  let currData :=
    match currData with
    | Some 0 => Some 5
    | Some 1 => Some 4
    | Some 2 => Some 3
    | Some 3 => Some 2
    | Some 4 => Some 1
    | Some 5 => Some 7
    | Some 6 => Some 6
    | other => other
    end in
  JSDate.setDate LocalTZA data (num_add (JSDate.getDate LocalTZA data) currData).

(** [None] is [undefined]: the variable [result] was never assigned. *)
Definition getCountDaysInMonth (month year : Z) : option Z :=
  if (year =? 2024) && (month =? 2) then Some 29
  else
    match month with
    | 1 => Some 31
    | 2 => Some 28
    | 3 => Some 31
    | 4 => Some 30
    | 5 => Some 31
    | 6 => Some 30
    | 7 => Some 31
    | 8 => Some 31
    | 9 => Some 30
    | 10 => Some 31
    | 11 => Some 30
    | 12 => Some 31
    | _ => None
    end.

(** Binary64 arithmetic, rounded at each step; [None] is NaN. *)
Definition getCountDaysOnPeriod (dateStart dateEnd : string) : option float :=
  let date1 := JSDate.new_string DateParse dateStart in
  let date2 := JSDate.new_string DateParse dateEnd in
  match JSDate.getTime date2, JSDate.getTime date1 with
  | Some t2, Some t1 =>
      let date3 :=
        (PrimFloat.sub (float_of_time t2) (float_of_time t1)
         / 1000 / 3600 / 24 + 1)%float in
      Some date3
  | _, _ => None
  end.

Definition isDateInPeriod (date : string) (period : DatePeriod) : bool :=
  let date1 := JSDate.new_string DateParse (period_start period) in
  let date2 := JSDate.new_string DateParse (period_end period) in
  let date3 := JSDate.new_string DateParse date in
  num_le (JSDate.getTime date1) (JSDate.getTime date3)
  && num_ge (JSDate.getTime date2) (JSDate.getTime date3).

Definition formatDate (date : string) : string :=
  let newDate := JSDate.new_string DateParse date in
  let getYear := JSDate.getFullYear LocalTZA newDate in
  let getMonth := num_add (JSDate.getUTCMonth newDate) (Some 1) in
  let getDay := JSDate.getUTCDate newDate in
  let getHours := JSDate.getUTCHours newDate in
  let pmAm := if num_lt getHours (Some 12) then "AM" else "PM" in
  let getHours :=
    if num_gt getHours (Some 12) then num_sub getHours (Some 12) else getHours in
  let getMinutes := JSDate.getUTCMinutes newDate in
  let getMinutes :=
    if num_lt getMinutes (Some 10) then "0" ++ num_toString getMinutes
    else num_toString getMinutes in
  let getSeconds := JSDate.getUTCSeconds newDate in
  let getSeconds :=
    if num_lt getSeconds (Some 10) then "0" ++ num_toString getSeconds
    else num_toString getSeconds in
  let dateFormat :=
    num_toString getMonth ++ "/" ++ num_toString getDay ++ "/" ++ num_toString getYear
    ++ ", " ++ num_toString getHours ++ ":" ++ getMinutes ++ ":" ++ getSeconds
    ++ " " ++ pmAm in
  dateFormat.

(** The loop [for (i = 1; i <= date.getDate(); i += 1)]; it does not run when
    the bound is NaN. *)
Definition getCountWeekendsInMonth (month year : Z) : Z :=
  let date := JSDate.new_fields LocalTZA (Some year) month 0 in
  let body (weekendDaysCount : Z) (i : nat) : Z :=
    let currDay :=
      JSDate.getDay LocalTZA
        (JSDate.new_fields LocalTZA (Some year) (month - 1) (Z.of_nat i)) in
    if num_eq currDay (Some 6) || num_eq currDay (Some 0)
    then weekendDaysCount + 1
    else weekendDaysCount in
  match JSDate.getDate LocalTZA date with
  | Some n => fold_left body (seq 1 (Z.to_nat n)) 0
  | None => 0
  end.

(** [None] is NaN. *)
Definition getWeekNumberByDate (date : JSDate.Date) : Number :=
  let data := JSDate.new_fields LocalTZA (JSDate.getFullYear LocalTZA date) 0 0 in
  match JSDate.valueOf date, JSDate.valueOf data, JSDate.getDay LocalTZA data with
  | Some t, Some t0, Some wd =>
      let differenceDays := (inject_Z (t - t0) / inject_Z (3600 * 1000 * 24))%Q in
      let numberOfWeeek := Qceiling ((differenceDays + inject_Z wd) / 7) in
      Some numberOfWeeek
  | _, _, _ => NaN
  end.

Definition getNextFridayThe13th {St Args : Type} (_ : Args) : JS St JSDate.Date :=
  js_throw (Error "Not implemented").

Definition getQuarter (date : JSDate.Date) : Z :=
  let data := JSDate.new_date date in
  let getQuartal := JSDate.getMonth LocalTZA data in
  if num_lt getQuartal (Some 3) then 1
  else if num_gt getQuartal (Some 2) && num_lt getQuartal (Some 6) then 2
  else if num_gt getQuartal (Some 5) && num_lt getQuartal (Some 9) then 3
  else 4.

Definition getWorkSchedule {St Args : Type} (_ : Args) : JS St (list string) :=
  js_throw (Error "Not implemented").

Definition isLeapYear (date : JSDate.Date) : bool :=
  let data := JSDate.new_date date in
  let leapYear := JSDate.getFullYear LocalTZA data in
  if num_eq (num_rem leapYear 4) (Some 0) && num_neq (num_rem leapYear 100) (Some 0)
  then true
  else if num_eq (num_rem leapYear 100) (Some 0) && num_eq (num_rem leapYear 400) (Some 0)
  then true
  else false.

End Tasks.

(** ** Notions the properties are stated with *)

(** A time value a Date object can hold. *)
Definition in_time_range (t : Z) : Prop := Z.abs t <= ES.maxTime.

(** [new Date(s)] is a valid date, of time value [t]. *)
Definition parses_to (parse : string -> Number) (s : string) (t : Z) : Prop :=
  JSDate.DateValue (JSDate.new_string parse s) = Some t.

(** The Gregorian rule: divisible by 4 and (not by 100, or by 400). *)
Definition gregorian_leap (y : Z) : Prop :=
  (4 | y) /\ (~ (100 | y) \/ (400 | y)).

(** [r] is the instant of [t], moved to the first Friday of the local
    calendar whose day lies strictly after the day of [t]: [k] days later,
    with no Friday on a day in between. *)
Definition next_friday_of (tza t r : Z) : Prop :=
  exists k : Z,
    1 <= k <= 7 /\
    r = t + k * ES.msPerDay /\
    ES.WeekDay (JSDate.LocalTime tza r) = 5 /\
    (forall u : Z,
        ES.Day (JSDate.LocalTime tza t) < ES.Day (JSDate.LocalTime tza u)
        < ES.Day (JSDate.LocalTime tza r) ->
        ES.WeekDay (JSDate.LocalTime tza u) <> 5) /\
    (ES.WeekDay (JSDate.LocalTime tza t) <> 5 -> k <= 6) /\
    (ES.WeekDay (JSDate.LocalTime tza t) = 5 -> k = 7).

(** Two digits, as [formatDate] pads minutes and seconds. *)
Definition pad2 (n : Z) : string :=
  if n <? 10 then "0" ++ Z_toString n else Z_toString n.

(** [new Date(s)] is an Invalid Date: [s] is not parseable, or it denotes a
    time past the range of time values. *)
Definition unparseable (parse : string -> Number) (s : string) : Prop :=
  JSDate.DateValue (JSDate.new_string parse s) = NaN.

(** The names of the days of the week, from Sunday. *)
Definition weekday_names : list string :=
  ["Sunday"; "Monday"; "Tuesday"; "Wednesday"; "Thursday"; "Friday"; "Saturday"].

(** Saturday (6) or Sunday (0). *)
Definition is_weekend (wd : Z) : bool := (wd =? 6) || (wd =? 0).

(** The Saturdays and Sundays among the days of month [m] (1 to 12) of year
    [y] in the calendar. *)
Definition calendar_weekends (y m : Z) : Z :=
  Z.of_nat
    (List.length
       (filter (fun i : nat =>
                  is_weekend
                    (ES.WeekDay (ES.MakeDate (ES.MakeDay y (m - 1) (Z.of_nat i)) 0)))
               (seq 1 (Z.to_nat (ES.DaysInMonth y m))))).

(** ** Facts about the ECMA-262 operations *)

Lemma DayFromYear_succ (y : Z) :
  ES.DayFromYear (y + 1) = ES.DayFromYear y + ES.DaysInYear y.
Proof.
  unfold ES.DayFromYear, ES.DaysInYear.
  replace (y + 1 - 1969) with (y - 1968) by lia.
  replace (y + 1 - 1901) with (y - 1900) by lia.
  replace (y + 1 - 1601) with (y - 1600) by lia.
  assert (H4 : (y - 1968) / 4 = (y - 1969) / 4 + (if y mod 4 =? 0 then 1 else 0)).
  { destruct (Z.eqb_spec (y mod 4) 0); Z.div_mod_to_equations; lia. }
  assert (H100 : (y - 1900) / 100 = (y - 1901) / 100 + (if y mod 100 =? 0 then 1 else 0)).
  { destruct (Z.eqb_spec (y mod 100) 0); Z.div_mod_to_equations; lia. }
  assert (H400 : (y - 1600) / 400 = (y - 1601) / 400 + (if y mod 400 =? 0 then 1 else 0)).
  { destruct (Z.eqb_spec (y mod 400) 0); Z.div_mod_to_equations; lia. }
  assert (A : y mod 400 = 0 -> y mod 100 = 0) by (intros; Z.div_mod_to_equations; lia).
  assert (B : y mod 100 = 0 -> y mod 4 = 0) by (intros; Z.div_mod_to_equations; lia).
  rewrite H4, H100, H400.
  destruct (Z.eqb_spec (y mod 4) 0), (Z.eqb_spec (y mod 100) 0),
    (Z.eqb_spec (y mod 400) 0); cbn [negb]; lia.
Qed.

Lemma DaysInYear_cases (y : Z) : ES.DaysInYear y = 365 \/ ES.DaysInYear y = 366.
Proof.
  unfold ES.DaysInYear.
  destruct (y mod 4 =? 0), (y mod 100 =? 0), (y mod 400 =? 0); cbn [negb]; auto.
Qed.

Lemma DayFromYear_lt (y y' : Z) : y < y' -> ES.DayFromYear y < ES.DayFromYear y'.
Proof.
  intros H. replace y' with (y + 1 + (y' - y - 1)) by lia.
  assert (Hn : 0 <= y' - y - 1) by lia.
  revert Hn. generalize (y' - y - 1). clear H y'.
  apply natlike_ind.
  - rewrite Z.add_0_r, DayFromYear_succ. destruct (DaysInYear_cases y); lia.
  - intros x Hx IH. replace (y + 1 + Z.succ x) with (y + 1 + x + 1) by lia.
    rewrite DayFromYear_succ. destruct (DaysInYear_cases (y + 1 + x)); lia.
Qed.

(** [YearFromDay d] is the year whose days contain [d]. *)
Lemma YearFromDay_spec (d : Z) :
  ES.DayFromYear (ES.YearFromDay d) <= d < ES.DayFromYear (ES.YearFromDay d + 1).
Proof.
  unfold ES.YearFromDay.
  set (y0 := 1970 + 400 * d / 146097).
  destruct (Z.ltb_spec d (ES.DayFromYear y0)) as [Hlt | Hge].
  - replace (y0 - 1 + 1) with y0 by lia. split; [| assumption].
    unfold ES.DayFromYear, y0. Z.div_mod_to_equations. lia.
  - destruct (Z.leb_spec (ES.DayFromYear (y0 + 1)) d) as [Hle | Hgt].
    + split; [assumption |]. unfold ES.DayFromYear, y0. Z.div_mod_to_equations. lia.
    + lia.
Qed.

(** ECMA-262 defines YearFromTime(t) as the largest year that starts at or
    before [t]. *)
Lemma YearFromTime_largest (t y : Z) :
  ES.TimeFromYear y <= t <-> y <= ES.YearFromTime t.
Proof.
  unfold ES.TimeFromYear, ES.YearFromTime, ES.Day.
  pose proof (YearFromDay_spec (t / ES.msPerDay)) as [Hlo Hhi].
  assert (Hd : ES.DayFromYear y <= t / ES.msPerDay <-> ES.msPerDay * ES.DayFromYear y <= t).
  { unfold ES.msPerDay. split; intros; Z.div_mod_to_equations; lia. }
  rewrite <- Hd. split; intros H.
  - destruct (Z.le_gt_cases y (ES.YearFromDay (t / ES.msPerDay))) as [|Hc]; [assumption |].
    assert (ES.YearFromDay (t / ES.msPerDay) + 1 <= y) as Hy by lia.
    destruct (Z.eq_dec (ES.YearFromDay (t / ES.msPerDay) + 1) y) as [<- | Hne]; [lia |].
    pose proof (DayFromYear_lt (ES.YearFromDay (t / ES.msPerDay) + 1) y). lia.
  - destruct (Z.eq_dec y (ES.YearFromDay (t / ES.msPerDay))) as [-> | Hne]; [assumption |].
    pose proof (DayFromYear_lt y (ES.YearFromDay (t / ES.msPerDay))). lia.
Qed.

Lemma DayWithinYear_range (t : Z) :
  0 <= ES.DayWithinYear t < ES.DaysInYear (ES.YearFromTime t).
Proof.
  unfold ES.DayWithinYear, ES.YearFromTime.
  pose proof (YearFromDay_spec (ES.Day t)) as H.
  rewrite DayFromYear_succ in H. lia.
Qed.

Lemma Day_add_days (t k : Z) : ES.Day (t + k * ES.msPerDay) = ES.Day t + k.
Proof. unfold ES.Day, ES.msPerDay. apply Z.div_add. lia. Qed.

Lemma TimeWithinDay_add_days (t k : Z) :
  ES.TimeWithinDay (t + k * ES.msPerDay) = ES.TimeWithinDay t.
Proof. unfold ES.TimeWithinDay, ES.msPerDay. apply Z.mod_add. lia. Qed.

Lemma Day_TimeWithinDay (t : Z) :
  ES.MakeDate (ES.Day t) (ES.TimeWithinDay t) = t.
Proof.
  unfold ES.MakeDate, ES.Day, ES.TimeWithinDay, ES.msPerDay.
  Z.div_mod_to_equations. lia.
Qed.

Lemma WeekDay_range (t : Z) : 0 <= ES.WeekDay t < 7.
Proof. unfold ES.WeekDay. apply Z.mod_pos_bound. lia. Qed.

Lemma WeekDay_add_days (t k : Z) :
  ES.WeekDay (t + k * ES.msPerDay) = (ES.WeekDay t + k) mod 7.
Proof.
  unfold ES.WeekDay. rewrite Day_add_days.
  rewrite Zplus_mod_idemp_l. f_equal. lia.
Qed.

Lemma MonthFromTime_range (t : Z) : 0 <= ES.MonthFromTime t <= 11.
Proof.
  unfold ES.MonthFromTime.
  repeat match goal with
         | |- context [if ?b then _ else _] => destruct b
         end; lia.
Qed.

(** MakeDay inverts the year, month and date of a time value, and a day
    offset added to the date is added to the day number. *)
Lemma MakeDay_fields (t k : Z) :
  ES.MakeDay (ES.YearFromTime t) (ES.MonthFromTime t) (ES.DateFromTime t + k)
  = ES.Day t + k.
Proof.
  pose proof (MonthFromTime_range t) as Hm.
  unfold ES.MakeDay.
  rewrite (Z.div_small (ES.MonthFromTime t) 12) by lia.
  rewrite (Z.mod_small (ES.MonthFromTime t) 12) by lia.
  rewrite Z.add_0_r.
  unfold ES.DateFromTime, ES.DayInYearOfMonth.
  fold (ES.InLeapYear t).
  unfold ES.DayWithinYear.
  destruct (ES.MonthFromTime t) as [| p | p]; [lia | | lia].
  do 4 (try destruct p as [p | p |]); lia.
Qed.

Lemma YearFromDay_unique (d y : Z) :
  ES.DayFromYear y <= d < ES.DayFromYear (y + 1) -> ES.YearFromDay d = y.
Proof.
  intros [Hlo Hhi].
  pose proof (YearFromDay_spec d) as [Hlo' Hhi'].
  destruct (Z.lt_trichotomy (ES.YearFromDay d) y) as [Hlt | [Heq | Hgt]];
    [| exact Heq |].
  - destruct (Z.eq_dec (ES.YearFromDay d + 1) y) as [E | Hne];
      [rewrite E in Hhi'; lia |].
    pose proof (DayFromYear_lt (ES.YearFromDay d + 1) y). lia.
  - destruct (Z.eq_dec (y + 1) (ES.YearFromDay d)) as [E | Hne];
      [rewrite <- E in Hlo'; lia |].
    pose proof (DayFromYear_lt (y + 1) (ES.YearFromDay d)). lia.
Qed.

(** MakeDay as ECMA-262 words it: the day it takes for the first of month
    [mn] of year [y] is a day of that year and month, with date 1. *)
Lemma MakeDay_first_of_month (y mn : Z) :
  0 <= mn <= 11 ->
  let t := ES.MakeDate (ES.MakeDay y mn 1) 0 in
  ES.YearFromTime t = y /\ ES.MonthFromTime t = mn /\ ES.DateFromTime t = 1.
Proof.
  intros Hmn t.
  assert (Hday : ES.Day t = ES.DayFromYear y + ES.DayInYearOfMonth mn (ES.DaysInYear y)).
  { unfold t, ES.MakeDate, ES.MakeDay, ES.Day.
    rewrite (Z.div_small mn 12), (Z.mod_small mn 12), Z.add_0_r by lia.
    rewrite Z.add_0_r. unfold ES.msPerDay. rewrite Z.div_mul by lia. lia. }
  assert (Hoff : 0 <= ES.DayInYearOfMonth mn (ES.DaysInYear y) < ES.DaysInYear y
                 /\ (ES.DaysInYear y = 365 \/ ES.DaysInYear y = 366)).
  { split; [| apply DaysInYear_cases].
    unfold ES.DayInYearOfMonth.
    destruct (DaysInYear_cases y) as [E | E]; rewrite E; cbn [Z.eqb Pos.eqb];
      destruct mn as [| p | p]; try lia;
      do 4 (try destruct p as [p | p |]); lia. }
  assert (Hy : ES.YearFromTime t = y).
  { unfold ES.YearFromTime. apply YearFromDay_unique.
    rewrite DayFromYear_succ, Hday. lia. }
  assert (Hdwy : ES.DayWithinYear t = ES.DayInYearOfMonth mn (ES.DaysInYear y)).
  { unfold ES.DayWithinYear. rewrite Hy, Hday. lia. }
  assert (Hm : ES.MonthFromTime t = mn).
  { unfold ES.MonthFromTime, ES.InLeapYear. rewrite Hdwy, Hy.
    unfold ES.DayInYearOfMonth.
    destruct Hoff as [_ [E | E]]; rewrite E; cbn [Z.eqb Pos.eqb];
      destruct mn as [| p | p]; try lia;
      do 4 (try destruct p as [p | p |]); try lia; reflexivity. }
  split; [exact Hy |]. split; [exact Hm |].
  unfold ES.DateFromTime, ES.InLeapYear. rewrite Hm, Hdwy, Hy.
  unfold ES.DayInYearOfMonth.
  destruct mn as [| p | p]; try lia;
    do 4 (try destruct p as [p | p |]); try lia;
    destruct (ES.DaysInYear y =? 366); lia.
Qed.

(** The Gregorian rule is the rule of DaysInYear. *)
Lemma gregorian_leap_DaysInYear (y : Z) :
  gregorian_leap y <-> ES.DaysInYear y = 366.
Proof.
  unfold gregorian_leap, ES.DaysInYear.
  assert (D : forall m, 0 < m -> (y mod m =? 0) = true <-> (m | y)).
  { intros m Hm. rewrite Z.eqb_eq. apply Z.mod_divide. lia. }
  pose proof (D 4 ltac:(lia)) as D4.
  pose proof (D 100 ltac:(lia)) as D100.
  pose proof (D 400 ltac:(lia)) as D400.
  assert (H400 : (400 | y) -> (100 | y)) by (intros [q ->]; exists (4 * q); lia).
  assert (H100 : (100 | y) -> (4 | y)) by (intros [q ->]; exists (25 * q); lia).
  destruct (y mod 4 =? 0), (y mod 100 =? 0), (y mod 400 =? 0); cbn [negb];
    intuition (try discriminate; try lia).
Qed.

Lemma TimeClip_in_range (t : Z) : in_time_range t -> ES.TimeClip t = Some t.
Proof.
  unfold in_time_range, ES.TimeClip. intros H.
  destruct (Z.gtb_spec (Z.abs t) ES.maxTime); [lia | reflexivity].
Qed.

(** ** Properties of the functions *)

Section Properties.

Variable LocalTZA : Z.
Variable DateParse : string -> Number.

(** *** getNextFriday *)

(** The days [getNextFriday] adds for a weekday, as its [switch] gives them. *)
Lemma getNextFriday_offset (t : Z) :
  in_time_range t ->
  exists k : Z,
    1 <= k <= 7 /\
    (ES.WeekDay (JSDate.LocalTime LocalTZA t) + k) mod 7 = 5 /\
    (ES.WeekDay (JSDate.LocalTime LocalTZA t) <> 5 -> k <= 6) /\
    (ES.WeekDay (JSDate.LocalTime LocalTZA t) = 5 -> k = 7) /\
    (forall j : Z,
        0 < j < k -> (ES.WeekDay (JSDate.LocalTime LocalTZA t) + j) mod 7 <> 5) /\
    getNextFriday LocalTZA (JSDate.mkDate (Some t))
    = JSDate.mkDate (ES.TimeClip (t + k * ES.msPerDay)).
Proof.
  intros Ht.
  unfold getNextFriday, JSDate.new_date, JSDate.new_number, JSDate.setDate,
    JSDate.getDay, JSDate.getDate, JSDate.local_field.
  cbn [JSDate.DateValue]. rewrite (TimeClip_in_range t Ht).
  cbn [JSDate.DateValue num_add].
  pose proof (WeekDay_range (JSDate.LocalTime LocalTZA t)) as Hw.
  assert (Hres : forall k : Z,
    ES.TimeClip (JSDate.UTC LocalTZA
      (ES.MakeDate
         (ES.MakeDay (ES.YearFromTime (JSDate.LocalTime LocalTZA t))
            (ES.MonthFromTime (JSDate.LocalTime LocalTZA t))
            (ES.DateFromTime (JSDate.LocalTime LocalTZA t) + k))
         (ES.TimeWithinDay (JSDate.LocalTime LocalTZA t))))
    = ES.TimeClip (t + k * ES.msPerDay)).
  { intros k. f_equal. rewrite MakeDay_fields.
    pose proof (Day_TimeWithinDay (JSDate.LocalTime LocalTZA t)) as Hd.
    unfold ES.MakeDate, JSDate.UTC, JSDate.LocalTime in *. lia. }
  generalize dependent (ES.WeekDay (JSDate.LocalTime LocalTZA t)). intros w Hw.
  assert (Hcases : w = 0 \/ w = 1 \/ w = 2 \/ w = 3 \/ w = 4 \/ w = 5 \/ w = 6) by lia.
  destruct Hcases as [E | [E | [E | [E | [E | [E | E]]]]]]; subst w;
    cbn [num_add];
    [ exists 5 | exists 4 | exists 3 | exists 2 | exists 1 | exists 7 | exists 6 ];
    (split; [lia |]); (split; [reflexivity |]); (split; [lia |]); (split; [lia |]);
    (split; [| rewrite Hres; reflexivity]);
    intros j Hj;
    assert (Hj' : j = 1 \/ j = 2 \/ j = 3 \/ j = 4 \/ j = 5 \/ j = 6) by lia;
    destruct Hj' as [-> | [-> | [-> | [-> | [-> | ->]]]]];
    solve [ lia | cbv; discriminate ].
Qed.

(** C4 (as amended): for every valid input date, [getNextFriday] moves it to
    the first Friday of the local calendar strictly after its day: 1 to 6
    days later when the input is not a Friday, exactly 7 days later when it
    is, with the time of day kept.  The result is that date when it is no later
    than the last time value of a Date, and an Invalid Date otherwise. *)
Theorem getNextFriday_next_friday (t : Z) :
  in_time_range t ->
  exists r : Z,
    next_friday_of LocalTZA t r /\
    getNextFriday LocalTZA (JSDate.mkDate (Some t))
    = JSDate.mkDate (if r <=? ES.maxTime then Some r else NaN).
Proof.
  intros Ht.
  destruct (getNextFriday_offset t Ht) as (k & Hk & Hfri & Hnot & Hon & Hmin & Hres).
  exists (t + k * ES.msPerDay). split.
  - exists k.
    assert (Hloc : JSDate.LocalTime LocalTZA (t + k * ES.msPerDay)
                   = JSDate.LocalTime LocalTZA t + k * ES.msPerDay)
      by (unfold JSDate.LocalTime; lia).
    repeat split; try lia; try assumption.
    + rewrite Hloc, WeekDay_add_days. exact Hfri.
    + rewrite Hloc, Day_add_days. intros u Hu.
      set (j := ES.Day (JSDate.LocalTime LocalTZA u)
                - ES.Day (JSDate.LocalTime LocalTZA t)).
      assert (Hj : 0 < j < k) by (unfold j; lia).
      replace (ES.WeekDay (JSDate.LocalTime LocalTZA u))
        with ((ES.WeekDay (JSDate.LocalTime LocalTZA t) + j) mod 7).
      * apply Hmin. exact Hj.
      * unfold ES.WeekDay. rewrite Zplus_mod_idemp_l. f_equal. unfold j. lia.
  - rewrite Hres. f_equal. unfold ES.TimeClip.
    unfold in_time_range, ES.maxTime, ES.msPerDay in *.
    destruct (Z.gtb_spec (Z.abs (t + k * 86400000)) 8640000000000000);
      destruct (Z.leb_spec (t + k * 86400000) 8640000000000000);
      try reflexivity; lia.
Qed.

(** *** getCountDaysInMonth *)

(** February outside 2024: the [switch] answers 28 whatever the year. *)
Lemma getCountDaysInMonth_february (year : Z) :
  year <> 2024 -> getCountDaysInMonth 2 year = Some 28.
Proof.
  intros H. unfold getCountDaysInMonth.
  destruct (Z.eqb_spec year 2024); [contradiction | reflexivity].
Qed.

(** C1 (the code at a leap year other than 2024): February 2020 has 29
    days, and [getCountDaysInMonth 2 2020] is 28; only the year 2024 is
    special-cased. *)
Theorem getCountDaysInMonth_february_2020 :
  gregorian_leap 2020 /\ ES.DaysInMonth 2020 2 = 29 /\
  getCountDaysInMonth 2 2020 = Some 28.
Proof.
  split; [| split; reflexivity].
  split; [exists 505; reflexivity |].
  left. intros [q Hq]. lia.
Qed.

(** C10: a month outside 1..12 leaves [result] unassigned, whatever the
    year: the function returns [undefined]. *)
Theorem getCountDaysInMonth_outside (month year : Z) :
  month < 1 \/ 12 < month -> getCountDaysInMonth month year = None.
Proof.
  intros H. unfold getCountDaysInMonth.
  destruct (Z.eqb_spec month 2) as [-> | _]; [lia |].
  rewrite andb_false_r.
  destruct month as [| p | p]; try reflexivity.
  do 4 (try destruct p as [p | p |]); try reflexivity; lia.
Qed.

(** *** isLeapYear *)

(** The two-branch test of the code on an integer year. *)
Lemma leap_test_gregorian (y : Z) :
  ((Z.rem y 4 =? 0) && negb (Z.rem y 100 =? 0)
   || (Z.rem y 100 =? 0) && (Z.rem y 400 =? 0)) = true
  <-> gregorian_leap y.
Proof.
  unfold gregorian_leap.
  assert (D : forall m, m <> 0 -> (Z.rem y m =? 0) = true <-> (m | y)).
  { intros m Hm. rewrite Z.eqb_eq. apply Z.rem_divide. exact Hm. }
  assert (H400 : (400 | y) -> (100 | y)).
  { intros [q ->]. exists (4 * q). lia. }
  assert (H100 : (100 | y) -> (4 | y)).
  { intros [q ->]. exists (25 * q). lia. }
  rewrite orb_true_iff, !andb_true_iff, negb_true_iff.
  rewrite <- not_true_iff_false.
  rewrite !D by lia.
  tauto.
Qed.

(** C6: for an input date of local year [y], [isLeapYear] answers true
    exactly when [y] is divisible by 4 and (not by 100, or by 400). *)
Theorem isLeapYear_gregorian (t y : Z) :
  in_time_range t ->
  JSDate.getFullYear LocalTZA (JSDate.mkDate (Some t)) = Some y ->
  (isLeapYear LocalTZA (JSDate.mkDate (Some t)) = true <-> gregorian_leap y).
Proof.
  intros Ht Hy.
  unfold isLeapYear, JSDate.new_date, JSDate.new_number. cbn [JSDate.DateValue].
  rewrite (TimeClip_in_range t Ht), Hy.
  unfold num_neq, num_eq, num_rem.
  rewrite <- leap_test_gregorian.
  destruct (Z.rem y 4 =? 0), (Z.rem y 100 =? 0), (Z.rem y 400 =? 0);
    cbn; intuition congruence.
Qed.

(** *** isDateInPeriod *)

(** C7: for parseable strings, [isDateInPeriod] is true exactly on the
    closed interval from the start to the end of the period. *)
Theorem isDateInPeriod_closed_interval (date : string) (period : DatePeriod)
    (ts te td : Z) :
  parses_to DateParse (period_start period) ts ->
  parses_to DateParse (period_end period) te ->
  parses_to DateParse date td ->
  (isDateInPeriod DateParse date period = true <-> ts <= td <= te).
Proof.
  intros Hs He Hd. unfold parses_to in *.
  unfold isDateInPeriod, JSDate.getTime. rewrite Hs, He, Hd.
  unfold num_ge, num_le.
  rewrite andb_true_iff, !Z.leb_le. tauto.
Qed.

(** *** formatDate *)

(** The string [formatDate] builds for a parseable input: UTC month, date,
    hour, minute and second, and the local year. *)
Lemma formatDate_fields (date : string) (t : Z) :
  parses_to DateParse date t ->
  formatDate LocalTZA DateParse date
  = Z_toString (ES.MonthFromTime t + 1) ++ "/" ++ Z_toString (ES.DateFromTime t)
    ++ "/" ++ Z_toString (ES.YearFromTime (JSDate.LocalTime LocalTZA t)) ++ ", "
    ++ Z_toString (if 12 <? ES.HourFromTime t then ES.HourFromTime t - 12
                   else ES.HourFromTime t)
    ++ ":" ++ pad2 (ES.MinFromTime t) ++ ":" ++ pad2 (ES.SecFromTime t)
    ++ " " ++ (if ES.HourFromTime t <? 12 then "AM" else "PM").
Proof.
  intros Hd. unfold parses_to in Hd.
  unfold formatDate, JSDate.getFullYear, JSDate.getUTCMonth, JSDate.getUTCDate,
    JSDate.getUTCHours, JSDate.getUTCMinutes, JSDate.getUTCSeconds,
    JSDate.local_field, JSDate.utc_field.
  rewrite Hd. unfold num_gt, num_lt, num_add, num_sub, pad2.
  destruct (12 <? ES.HourFromTime t); reflexivity.
Qed.

(** C9: at UTC hour 12 the hour is shown as 12 and the suffix is PM. *)
Theorem formatDate_noon (date : string) (t : Z) :
  parses_to DateParse date t ->
  ES.HourFromTime t = 12 ->
  formatDate LocalTZA DateParse date
  = Z_toString (ES.MonthFromTime t + 1) ++ "/" ++ Z_toString (ES.DateFromTime t)
    ++ "/" ++ Z_toString (ES.YearFromTime (JSDate.LocalTime LocalTZA t))
    ++ ", 12:" ++ pad2 (ES.MinFromTime t) ++ ":" ++ pad2 (ES.SecFromTime t) ++ " PM".
Proof.
  intros Hd Hh. rewrite (formatDate_fields date t Hd), Hh. reflexivity.
Qed.

(** At UTC hour 0 the hour is shown as 0, with the suffix AM. *)
Lemma formatDate_midnight (date : string) (t : Z) :
  parses_to DateParse date t ->
  ES.HourFromTime t = 0 ->
  formatDate LocalTZA DateParse date
  = Z_toString (ES.MonthFromTime t + 1) ++ "/" ++ Z_toString (ES.DateFromTime t)
    ++ "/" ++ Z_toString (ES.YearFromTime (JSDate.LocalTime LocalTZA t))
    ++ ", 0:" ++ pad2 (ES.MinFromTime t) ++ ":" ++ pad2 (ES.SecFromTime t) ++ " AM".
Proof.
  intros Hd Hh. rewrite (formatDate_fields date t Hd), Hh. reflexivity.
Qed.

(** *** getWeekNumberByDate *)

(** The ceiling of the code, on integers: days are counted in milliseconds
    [n] and the divisor is the milliseconds of a week. *)
Lemma week_ceiling (n wd : Z) :
  Qceiling ((inject_Z n / inject_Z (3600 * 1000 * 24) + inject_Z wd) / 7)
  = - ((- (n + wd * ES.msPerDay)) / (7 * ES.msPerDay)).
Proof.
  unfold ES.msPerDay.
  rewrite (Qceiling_comp _ (inject_Z (n + wd * 86400000) / inject_Z (7 * 86400000))).
  - unfold Qceiling. f_equal. rewrite Zdiv_Qdiv. apply Qfloor_comp.
    unfold Qeq. cbn. lia.
  - unfold Qeq. cbn. lia.
Qed.

(** The Date [new Date(y, 0, 0)] for a year outside 0..99: the local midnight
    that starts December 31 of the year before. *)
Lemma newDate_fields_jan0 (y : Z) :
  ~ (0 <= y <= 99) ->
  JSDate.new_fields LocalTZA (Some y) 0 0
  = JSDate.mkDate
      (ES.TimeClip (JSDate.UTC LocalTZA ((ES.DayFromYear y - 1) * ES.msPerDay))).
Proof.
  intros Hy. unfold JSDate.new_fields.
  replace ((0 <=? y) && (y <=? 99)) with false
    by (symmetry; apply andb_false_iff;
        destruct (Z.leb_spec 0 y); destruct (Z.leb_spec y 99); auto; lia).
  unfold ES.MakeDate, ES.MakeDay, ES.MakeTime.
  do 2 f_equal. f_equal. cbn. rewrite (Z.add_0_r y). unfold ES.msPerDay. lia.
Qed.

(** For a valid date whose local year [y] is outside 0..99 and whose
    "January 0" is a time value, [getWeekNumberByDate] is the ceiling of
    (days since January 0 + weekday of January 0) / 7, and at least 1. *)
Lemma getWeekNumberByDate_formula (t : Z) :
  let y := ES.YearFromTime (JSDate.LocalTime LocalTZA t) in
  let jan0 := JSDate.UTC LocalTZA ((ES.DayFromYear y - 1) * ES.msPerDay) in
  in_time_range t ->
  ~ (0 <= y <= 99) ->
  in_time_range jan0 ->
  exists w : Z,
    getWeekNumberByDate LocalTZA (JSDate.mkDate (Some t)) = Some w /\
    w = - ((- ((t - jan0) + ES.WeekDay (JSDate.LocalTime LocalTZA jan0) * ES.msPerDay))
           / (7 * ES.msPerDay)) /\
    1 <= w.
Proof.
  intros y jan0 Ht Hy Hj.
  unfold getWeekNumberByDate, JSDate.getFullYear, JSDate.getDay, JSDate.valueOf,
    JSDate.local_field.
  cbn [JSDate.DateValue]. fold y. rewrite (newDate_fields_jan0 y Hy). fold jan0.
  rewrite (TimeClip_in_range jan0 Hj). cbn [JSDate.DateValue].
  eexists. split; [reflexivity |]. rewrite week_ceiling. split; [reflexivity |].
  pose proof (WeekDay_range (JSDate.LocalTime LocalTZA jan0)) as Hw.
  pose proof (YearFromDay_spec (ES.Day (JSDate.LocalTime LocalTZA t))) as [Hlo _].
  fold (ES.YearFromTime (JSDate.LocalTime LocalTZA t)) in Hlo. fold y in Hlo.
  assert (Hd : ES.msPerDay <= t - jan0).
  { unfold jan0, JSDate.UTC, JSDate.LocalTime, ES.Day, ES.msPerDay in *.
    Z.div_mod_to_equations. lia. }
  generalize dependent (ES.WeekDay (JSDate.LocalTime LocalTZA jan0)). intros wd Hwd.
  generalize dependent (t - jan0). intros n Hn.
  unfold ES.msPerDay in *. Z.div_mod_to_equations. nia.
Qed.

(** The ceiling of whole days [m] and a time [s] within the day, over the
    milliseconds of a week. *)
Lemma week_ceiling_by_day (m s : Z) :
  0 <= s < ES.msPerDay ->
  - ((- (m * ES.msPerDay + s)) / (7 * ES.msPerDay))
  = if s =? 0 then (m + 6) / 7 else m / 7 + 1.
Proof.
  unfold ES.msPerDay. intros Hs.
  destruct (Z.eqb_spec s 0) as [-> | Hne].
  - rewrite Z.add_0_r.
    replace (- (m * 86400000)) with ((- m) * 86400000) by lia.
    rewrite Z.div_mul_cancel_r by lia.
    Z.div_mod_to_equations. lia.
  - assert (E : (- (m * 86400000 + s)) / (7 * 86400000) = (- m - 1) / 7).
    { replace (7 * 86400000) with (86400000 * 7) by lia.
      rewrite <- Z.div_div by lia.
      f_equal.
      replace (- (m * 86400000 + s))
        with ((86400000 - s) + (- m - 1) * 86400000) by lia.
      rewrite Z.div_add by lia. rewrite Z.div_small by lia. lia. }
    rewrite E. Z.div_mod_to_equations. lia.
Qed.

(** The week number by the day [n] of the year (1 for January 1) and the
    weekday [wd] of December 31 before it: at local midnight it is the
    ceiling of [(n + wd) / 7], the number of the week that starts on Monday;
    later in the day it is [floor((n + wd) / 7) + 1], which on a Sunday is one
    week more. *)
Lemma getWeekNumberByDate_by_day (t : Z) :
  let lt := JSDate.LocalTime LocalTZA t in
  let y := ES.YearFromTime lt in
  let jan0 := JSDate.UTC LocalTZA ((ES.DayFromYear y - 1) * ES.msPerDay) in
  let n := ES.Day lt - ES.DayFromYear y + 1 in
  let wd := ES.WeekDay (JSDate.LocalTime LocalTZA jan0) in
  in_time_range t ->
  ~ (0 <= y <= 99) ->
  in_time_range jan0 ->
  getWeekNumberByDate LocalTZA (JSDate.mkDate (Some t))
  = Some (if ES.TimeWithinDay lt =? 0 then (n + wd + 6) / 7 else (n + wd) / 7 + 1).
Proof.
  intros lt y jan0 n wd Ht Hy Hj.
  destruct (getWeekNumberByDate_formula t Ht Hy Hj) as (w & Hw & Heq & _).
  rewrite Hw. f_equal. rewrite Heq. fold lt y jan0 wd.
  assert (Hs : 0 <= ES.TimeWithinDay lt < ES.msPerDay)
    by (apply Z.mod_pos_bound; unfold ES.msPerDay; lia).
  rewrite <- (week_ceiling_by_day (n + wd) (ES.TimeWithinDay lt) Hs).
  do 3 f_equal.
  pose proof (Day_TimeWithinDay lt) as Hd.
  assert (Hlt : lt = t + LocalTZA) by reflexivity.
  unfold n, jan0, JSDate.UTC, ES.MakeDate, ES.msPerDay in *. lia.
Qed.

(** *** getNextFridayThe13th and getWorkSchedule *)

(** C8: whatever the arguments and the store, both functions end by throwing
    [Error('Not implemented')]; neither returns a value, and the store is
    left as it was. *)
Theorem not_implemented_always_throws :
  (forall (St Args : Type) (args : Args) (s : St),
      getNextFridayThe13th args s = (Throw (Error "Not implemented"), s)) /\
  (forall (St Args : Type) (args : Args) (s : St),
      getWorkSchedule args s = (Throw (Error "Not implemented"), s)).
Proof. split; intros; reflexivity. Qed.

End Properties.

(** ** The functions at concrete inputs

    Time zone UTC ([LocalTZA = 0]) and the ISO parser. *)

(** The examples of the comments of the module, run on the embedding. *)

Example dateToTimestamp_examples :
  dateToTimestamp ISO.parse "1970-01-01T00:00:00Z" = Some 0 /\
  dateToTimestamp ISO.parse "1995-12-04T00:12:00Z" = Some 818035920000.
Proof. split; vm_compute; reflexivity. Qed.

Example getTime_examples :
  getTime 0 (JSDate.new_string ISO.parse "2023-06-01T08:20:55Z") = "08:20:55" /\
  getTime 0 (JSDate.new_string ISO.parse "2015-11-20T23:15:01Z") = "23:15:01".
Proof. split; vm_compute; reflexivity. Qed.

Example getDayName_examples :
  getDayName ISO.parse "1970-01-01T00:00:00Z" = Some "Thursday" /\
  getDayName ISO.parse "1995-12-03T00:12:00Z" = Some "Sunday" /\
  getDayName ISO.parse "2024-01-30T00:00:00.000Z" = Some "Tuesday".
Proof. repeat split; vm_compute; reflexivity. Qed.

Example getNextFriday_examples :
  getNextFriday 0 (JSDate.new_string ISO.parse "2024-02-03T00:00:00Z")
  = JSDate.new_string ISO.parse "2024-02-09T00:00:00Z" /\
  getNextFriday 0 (JSDate.new_string ISO.parse "2024-02-13T00:00:00Z")
  = JSDate.new_string ISO.parse "2024-02-16T00:00:00Z" /\
  getNextFriday 0 (JSDate.new_string ISO.parse "2024-02-16T00:00:00Z")
  = JSDate.new_string ISO.parse "2024-02-23T00:00:00Z".
Proof. repeat split; vm_compute; reflexivity. Qed.

Example getCountDaysInMonth_examples :
  getCountDaysInMonth 1 2024 = Some 31 /\
  getCountDaysInMonth 2 2024 = Some 29 /\
  getCountDaysInMonth 2 2023 = Some 28.
Proof. repeat split; reflexivity. Qed.

Example isDateInPeriod_examples :
  isDateInPeriod ISO.parse "2024-02-01" (mkPeriod "2024-02-02" "2024-03-02") = false /\
  isDateInPeriod ISO.parse "2024-02-02" (mkPeriod "2024-02-02" "2024-03-02") = true /\
  isDateInPeriod ISO.parse "2024-02-10" (mkPeriod "2024-02-02" "2024-03-02") = true.
Proof. repeat split; vm_compute; reflexivity. Qed.

Example formatDate_examples :
  formatDate 0 ISO.parse "2024-02-01T15:00:00.000Z" = "2/1/2024, 3:00:00 PM" /\
  formatDate 0 ISO.parse "1999-01-05T02:20:00.000Z" = "1/5/1999, 2:20:00 AM" /\
  formatDate 0 ISO.parse "2010-12-15T22:59:00.000Z" = "12/15/2010, 10:59:00 PM".
Proof. repeat split; vm_compute; reflexivity. Qed.

Example getCountWeekendsInMonth_examples :
  getCountWeekendsInMonth 0 5 2022 = 9 /\
  getCountWeekendsInMonth 0 12 2023 = 10 /\
  getCountWeekendsInMonth 0 1 2024 = 8.
Proof. repeat split; vm_compute; reflexivity. Qed.

Example getWeekNumberByDate_examples :
  getWeekNumberByDate 0 (JSDate.new_fields 0 (Some 2024) 0 3) = Some 1 /\
  getWeekNumberByDate 0 (JSDate.new_fields 0 (Some 2024) 0 31) = Some 5 /\
  getWeekNumberByDate 0 (JSDate.new_fields 0 (Some 2024) 1 23) = Some 8.
Proof. repeat split; vm_compute; reflexivity. Qed.

Example getQuarter_examples :
  getQuarter 0 (JSDate.new_fields 0 (Some 2024) 1 13) = 1 /\
  getQuarter 0 (JSDate.new_fields 0 (Some 2024) 5 1) = 2 /\
  getQuarter 0 (JSDate.new_fields 0 (Some 2024) 10 10) = 4.
Proof. repeat split; vm_compute; reflexivity. Qed.

Example isLeapYear_examples :
  isLeapYear 0 (JSDate.new_fields 0 (Some 2024) 2 1) = true /\
  isLeapYear 0 (JSDate.new_fields 0 (Some 2022) 2 1) = false /\
  isLeapYear 0 (JSDate.new_fields 0 (Some 2020) 2 1) = true.
Proof. repeat split; vm_compute; reflexivity. Qed.

(** C4 at Saturday 2024-02-03: the result is Friday 2024-02-09. *)
Lemma getNextFriday_next_friday_witness :
  in_time_range 1706918400000 /\
  exists r : Z,
    next_friday_of 0 1706918400000 r /\
    getNextFriday 0 (JSDate.mkDate (Some 1706918400000))
    = JSDate.mkDate (if r <=? ES.maxTime then Some r else NaN).
Proof.
  assert (H : in_time_range 1706918400000) by (unfold in_time_range, ES.maxTime; lia).
  split; [exact H | apply (getNextFriday_next_friday 0 1706918400000 H)].
Defined.

(** C4 as stated fails at the last time value of a Date, Saturday
    +275760-09-13T00:00:00Z: the Friday six days later is no time value, and
    the result is an Invalid Date, not a date. *)
Lemma getNextFriday_last_time_value :
  in_time_range ES.maxTime /\
  JSDate.getDay 0 (JSDate.mkDate (Some ES.maxTime)) = Some 6 /\
  getNextFriday 0 (JSDate.mkDate (Some ES.maxTime)) = JSDate.mkDate NaN /\
  ~ (exists r : Z,
        getNextFriday 0 (JSDate.mkDate (Some ES.maxTime)) = JSDate.mkDate (Some r) /\
        next_friday_of 0 ES.maxTime r).
Proof.
  assert (E : getNextFriday 0 (JSDate.mkDate (Some ES.maxTime)) = JSDate.mkDate NaN)
    by (vm_compute; reflexivity).
  split; [unfold in_time_range, ES.maxTime; lia |].
  split; [vm_compute; reflexivity |].
  split; [exact E |].
  intros (r & Hr & _). rewrite E in Hr. discriminate Hr.
Qed.

(** C6 at 2024-03-01T00:00:00Z. *)
Lemma isLeapYear_gregorian_witness :
  isLeapYear 0 (JSDate.mkDate (Some 1709251200000)) = true <-> gregorian_leap 2024.
Proof.
  apply (isLeapYear_gregorian 0 1709251200000 2024).
  - unfold in_time_range, ES.maxTime. lia.
  - vm_compute. reflexivity.
Defined.

(** C7 at the start of the period. *)
Lemma isDateInPeriod_closed_interval_witness :
  isDateInPeriod ISO.parse "2024-02-02" (mkPeriod "2024-02-02" "2024-03-02") = true
  <-> 1706832000000 <= 1706832000000 <= 1709337600000.
Proof.
  apply (isDateInPeriod_closed_interval ISO.parse "2024-02-02"
           (mkPeriod "2024-02-02" "2024-03-02")); vm_compute; reflexivity.
Defined.

(** C3 (the code at instants half a day apart): for two instants of the
    same calendar date, twelve hours apart, [getCountDaysOnPeriod] is 1.5,
    not [floor(1/2) + 1 = 1], and no whole count of days.  For the same
    instant it is 1, and for the examples of its comment 2 and 12. *)
Theorem getCountDaysOnPeriod_half_day :
  parses_to ISO.parse "2024-02-01T00:00:00.000Z" 1706745600000 /\
  parses_to ISO.parse "2024-02-01T12:00:00.000Z" 1706788800000 /\
  (1706788800000 - 1706745600000) / ES.msPerDay + 1 = 1 /\
  getCountDaysOnPeriod ISO.parse "2024-02-01T00:00:00.000Z" "2024-02-01T12:00:00.000Z"
  = Some 1.5%float /\
  getCountDaysOnPeriod ISO.parse "2024-02-01T00:00:00.000Z" "2024-02-01T00:00:00.000Z"
  = Some 1%float /\
  getCountDaysOnPeriod ISO.parse "2024-02-01T00:00:00.000Z" "2024-02-02T00:00:00.000Z"
  = Some 2%float /\
  getCountDaysOnPeriod ISO.parse "2024-02-01T00:00:00.000Z" "2024-02-12T00:00:00.000Z"
  = Some 12%float.
Proof. repeat split; vm_compute; reflexivity. Qed.

(** C9 at noon of 2010-12-15. *)
Lemma formatDate_noon_witness :
  formatDate 0 ISO.parse "2010-12-15T12:59:00.000Z" = "12/15/2010, 12:59:00 PM".
Proof.
  apply (formatDate_noon 0 ISO.parse "2010-12-15T12:59:00.000Z" 1292417940000);
    vm_compute; reflexivity.
Defined.

(** C2 (the code at midnight): the hour of 00:05:09 UTC is shown as 0, not
    as 12. *)
Theorem formatDate_midnight_2024 :
  JSDate.getUTCHours (JSDate.new_string ISO.parse "2024-02-01T00:05:09.000Z") = Some 0 /\
  formatDate 0 ISO.parse "2024-02-01T00:05:09.000Z" = "2/1/2024, 0:05:09 AM".
Proof. split; vm_compute; reflexivity. Qed.

(** C10 at month 13. *)
Lemma getCountDaysInMonth_outside_witness :
  getCountDaysInMonth 13 2024 = None.
Proof. apply (getCountDaysInMonth_outside 13 2024). right. lia. Defined.

(** C5 (the code on New Year's Day 2023, a Sunday, and in the year 50): at
    local midnight of 2023-01-01 the week is 1, at noon of the same day it is
    2; for a date of the year 50, [new Date(50, 0, 0)] is December 31, 1949
    and the week number is negative. *)
Theorem getWeekNumberByDate_sunday_noon :
  JSDate.getDay 0 (JSDate.new_string ISO.parse "2023-01-01T12:00:00Z") = Some 0 /\
  getWeekNumberByDate 0 (JSDate.new_string ISO.parse "2023-01-01T00:00:00Z") = Some 1 /\
  getWeekNumberByDate 0 (JSDate.new_string ISO.parse "2023-01-01T12:00:00Z") = Some 2 /\
  JSDate.getFullYear 0 (JSDate.new_string ISO.parse "0050-06-01T00:00:00Z") = Some 50 /\
  getWeekNumberByDate 0 (JSDate.new_string ISO.parse "0050-06-01T00:00:00Z")
  = Some (-99114).
Proof. repeat split; vm_compute; reflexivity. Qed.

(** ** Further properties of the functions *)

(** *** Strings, fields of a time value, days of the calendar *)

(** A decidable property of the integers below a bound, checked by running it. *)
Lemma forall_below (P : Z -> bool) (N : nat) :
  forallb (fun k => P (Z.of_nat k)) (seq 0 N) = true ->
  forall n : Z, 0 <= n < Z.of_nat N -> P n = true.
Proof.
  intros H n Hn. rewrite forallb_forall in H.
  specialize (H (Z.to_nat n)). rewrite Z2Nat.id in H by lia.
  apply H. apply in_seq. lia.
Qed.

Lemma pad2_length (n : Z) : 0 <= n < 100 -> String.length (pad2 n) = 2%nat.
Proof.
  intros Hn.
  apply Nat.eqb_eq.
  apply (forall_below (fun k => Nat.eqb (String.length (pad2 k)) 2) 100);
    [vm_compute; reflexivity | lia].
Qed.

Lemma string_append_assoc (a b c : string) : (a ++ b) ++ c = a ++ (b ++ c).
Proof. induction a as [| x a IH]; cbn; [reflexivity | now rewrite IH]. Qed.

Lemma string_length_append (a b : string) :
  String.length (a ++ b) = (String.length a + String.length b)%nat.
Proof. induction a as [| x a IH]; cbn; [reflexivity | now rewrite IH]. Qed.

Lemma HourFromTime_range (t : Z) : 0 <= ES.HourFromTime t < 24.
Proof. unfold ES.HourFromTime, ES.HoursPerDay. apply Z.mod_pos_bound. lia. Qed.

Lemma MinFromTime_range (t : Z) : 0 <= ES.MinFromTime t < 60.
Proof. unfold ES.MinFromTime, ES.MinutesPerHour. apply Z.mod_pos_bound. lia. Qed.

Lemma SecFromTime_range (t : Z) : 0 <= ES.SecFromTime t < 60.
Proof. unfold ES.SecFromTime, ES.SecondsPerMinute. apply Z.mod_pos_bound. lia. Qed.

Lemma MakeDay_month_day (y mn d : Z) :
  0 <= mn <= 11 ->
  ES.MakeDay y mn d
  = ES.DayFromYear y + ES.DayInYearOfMonth mn (ES.DaysInYear y) + d - 1.
Proof.
  intros Hm. unfold ES.MakeDay.
  rewrite (Z.div_small mn 12), (Z.mod_small mn 12), Z.add_0_r by lia. reflexivity.
Qed.

Lemma DaysInMonth_range (y m : Z) : 28 <= ES.DaysInMonth y m <= 31.
Proof.
  unfold ES.DaysInMonth.
  destruct m as [| p | p]; try lia.
  do 4 (try destruct p as [p | p |]); try lia.
  destruct (ES.DaysInYear y =? 366); lia.
Qed.

(** Day 0 of a month is the last day of the month before. *)
Lemma MakeDay_day_zero (y m : Z) :
  1 <= m <= 12 ->
  ES.MakeDay y m 0 = ES.MakeDay y (m - 1) (ES.DaysInMonth y m).
Proof.
  intros Hm.
  rewrite (MakeDay_month_day y (m - 1)) by lia.
  destruct (Z.eq_dec m 12) as [-> | Hne].
  - unfold ES.MakeDay. change (12 / 12) with 1. change (12 mod 12) with 0.
    rewrite DayFromYear_succ.
    unfold ES.DayInYearOfMonth, ES.DaysInMonth. cbn [Z.sub Z.add Z.pos_sub Pos.pred_double].
    destruct (DaysInYear_cases y) as [E | E]; rewrite ?E; cbn; rewrite ?E; cbn; lia.
  - rewrite MakeDay_month_day by lia.
    unfold ES.DayInYearOfMonth, ES.DaysInMonth.
    destruct (ES.DaysInYear y =? 366);
      destruct m as [| p | p]; try lia;
      do 4 (try destruct p as [p | p |]); try lia; cbn; lia.
Qed.

(** The fields of a day of the calendar, read back from its time value. *)
Lemma MakeDay_fields_back (y mn d : Z) :
  0 <= mn <= 11 ->
  1 <= d <= ES.DaysInMonth y (mn + 1) ->
  let t := ES.MakeDate (ES.MakeDay y mn d) 0 in
  ES.YearFromTime t = y /\ ES.MonthFromTime t = mn /\ ES.DateFromTime t = d.
Proof.
  intros Hmn Hd t.
  assert (Hday : ES.Day t
                 = ES.DayFromYear y + ES.DayInYearOfMonth mn (ES.DaysInYear y) + d - 1).
  { unfold t, ES.MakeDate, ES.Day. rewrite MakeDay_month_day by lia.
    rewrite Z.add_0_r. unfold ES.msPerDay. rewrite Z.div_mul by lia. reflexivity. }
  assert (Hoff : 0 <= ES.DayInYearOfMonth mn (ES.DaysInYear y) + d - 1 < ES.DaysInYear y).
  { unfold ES.DayInYearOfMonth, ES.DaysInMonth in *.
    destruct (DaysInYear_cases y) as [E | E]; rewrite E in *; cbn [Z.eqb Pos.eqb] in *;
      destruct mn as [| p | p]; try lia;
      do 4 (try destruct p as [p | p |]); cbn in Hd; lia. }
  assert (Hy : ES.YearFromTime t = y).
  { unfold ES.YearFromTime. apply YearFromDay_unique.
    rewrite DayFromYear_succ, Hday. lia. }
  assert (Hdwy : ES.DayWithinYear t = ES.DayInYearOfMonth mn (ES.DaysInYear y) + d - 1).
  { unfold ES.DayWithinYear. rewrite Hy, Hday. lia. }
  assert (Hm : ES.MonthFromTime t = mn).
  { unfold ES.MonthFromTime, ES.InLeapYear. rewrite Hdwy, Hy.
    unfold ES.DayInYearOfMonth, ES.DaysInMonth in *.
    destruct (DaysInYear_cases y) as [E | E]; rewrite E in *; cbn [Z.eqb Pos.eqb] in *;
      destruct mn as [| p | p]; try lia;
      do 4 (try destruct p as [p | p |]); cbn in Hd; try lia;
      repeat match goal with
             | |- context [?a <? ?b] => destruct (Z.ltb_spec a b); try lia
             end; reflexivity. }
  split; [exact Hy |]. split; [exact Hm |].
  unfold ES.DateFromTime, ES.InLeapYear. rewrite Hm, Hdwy, Hy.
  unfold ES.DayInYearOfMonth.
  destruct mn as [| p | p]; try lia;
    do 4 (try destruct p as [p | p |]); try lia;
    destruct (ES.DaysInYear y =? 366); lia.
Qed.

Lemma DayFromYear_bounds (y : Z) :
  -270000 <= y <= 275001 -> -99400000 <= ES.DayFromYear y <= 99730000.
Proof. intros H. unfold ES.DayFromYear. Z.div_mod_to_equations. lia. Qed.

Lemma fold_left_count (p : nat -> bool) (l : list nat) (a : Z) :
  fold_left (fun acc i => if p i then acc + 1 else acc) l a
  = a + Z.of_nat (List.length (filter p l)).
Proof.
  revert a. induction l as [| i l IH]; intros a; cbn [fold_left filter].
  - cbn. lia.
  - rewrite IH. destruct (p i); cbn [List.length]; lia.
Qed.

Lemma fold_left_ext_in (f g : Z -> nat -> Z) (l : list nat) (a : Z) :
  (forall acc i, In i l -> f acc i = g acc i) ->
  fold_left f l a = fold_left g l a.
Proof.
  revert a. induction l as [| i l IH]; intros a H; cbn [fold_left]; [reflexivity |].
  rewrite (H a i) by (left; reflexivity).
  apply IH. intros acc j Hj. apply H. right. exact Hj.
Qed.

(** The weekend days among [n] consecutive days after a day of weekday [w]. *)
Lemma weekends_in_run (w : Z) (n : nat) :
  0 <= w < 7 ->
  (28 <= n <= 31)%nat ->
  8 <= Z.of_nat (List.length
                   (filter (fun i : nat => is_weekend ((w + Z.of_nat i) mod 7)) (seq 1 n)))
  <= 10.
Proof.
  intros Hw Hn.
  assert (Hw' : w = 0 \/ w = 1 \/ w = 2 \/ w = 3 \/ w = 4 \/ w = 5 \/ w = 6) by lia.
  assert (Hn' : n = 28%nat \/ n = 29%nat \/ n = 30%nat \/ n = 31%nat) by lia.
  destruct Hw' as [-> | [-> | [-> | [-> | [-> | [-> | ->]]]]]];
    destruct Hn' as [-> | [-> | [-> | ->]]]; vm_compute; split; discriminate.
Qed.

Section Further.

Variable LocalTZA : Z.
Variable DateParse : string -> Number.

(** *** dateToTimestamp *)

(** X1: [dateToTimestamp] is NaN exactly for a string that [new Date] cannot
    hold (unparseable, or past the range of time values); otherwise it is
    the time value of the string, at most [ES.maxTime] in magnitude. *)
Theorem dateToTimestamp_result (date : string) :
  match dateToTimestamp DateParse date with
  | Some t => parses_to DateParse date t /\ in_time_range t
  | None => unparseable DateParse date
  end.
Proof.
  unfold dateToTimestamp, parses_to, unparseable, JSDate.valueOf.
  change (JSDate.DateValue (JSDate.new_number (Some 0))) with (Some 0).
  unfold JSDate.new_string, JSDate.new_number. cbn [JSDate.DateValue].
  destruct (DateParse date) as [tv |]; [| reflexivity].
  unfold ES.TimeClip.
  destruct (Z.gtb_spec (Z.abs tv) ES.maxTime) as [| Hr]; [reflexivity |].
  cbn [num_sub]. rewrite Z.sub_0_r. split; [reflexivity | exact Hr].
Qed.

(** *** getTime *)

(** X2: for a valid date [getTime] is the local hour, minute and second,
    each padded to two digits and joined by colons: eight characters. *)
Theorem getTime_format (t : Z) :
  let lt := JSDate.LocalTime LocalTZA t in
  getTime LocalTZA (JSDate.mkDate (Some t))
  = pad2 (ES.HourFromTime lt) ++ ":" ++ pad2 (ES.MinFromTime lt) ++ ":"
    ++ pad2 (ES.SecFromTime lt) /\
  String.length (getTime LocalTZA (JSDate.mkDate (Some t))) = 8%nat.
Proof.
  intros lt.
  assert (E : getTime LocalTZA (JSDate.mkDate (Some t))
    = pad2 (ES.HourFromTime lt) ++ ":" ++ pad2 (ES.MinFromTime lt) ++ ":"
      ++ pad2 (ES.SecFromTime lt)).
  { unfold getTime, JSDate.getHours, JSDate.getMinutes, JSDate.getSeconds,
      JSDate.local_field. cbn [JSDate.DateValue]. fold lt.
    unfold num_lt, num_toString, pad2.
    destruct (ES.HourFromTime lt <? 10), (ES.MinFromTime lt <? 10),
      (ES.SecFromTime lt <? 10); cbn [append];
      repeat rewrite string_append_assoc; reflexivity. }
  split; [exact E |].
  rewrite E. rewrite !string_length_append.
  pose proof (HourFromTime_range lt). pose proof (MinFromTime_range lt).
  pose proof (SecFromTime_range lt).
  rewrite !pad2_length by lia. reflexivity.
Qed.

(** *** getDayName *)

(** X3: for a parseable string [getDayName] is never [undefined]: it is the
    name at the index of the UTC weekday, one of the seven names. *)
Theorem getDayName_weekday (date : string) (t : Z) :
  parses_to DateParse date t ->
  exists name : string,
    getDayName DateParse date = Some name /\
    nth_error weekday_names (Z.to_nat (ES.WeekDay t)) = Some name /\
    In name weekday_names.
Proof.
  unfold parses_to, getDayName, JSDate.getUTCDay, JSDate.utc_field. intros ->.
  fold weekday_names.
  pose proof (WeekDay_range t) as Hw.
  destruct (nth_error weekday_names (Z.to_nat (ES.WeekDay t))) as [name |] eqn:E.
  - exists name. repeat split. eapply nth_error_In. exact E.
  - apply nth_error_None in E. cbn in E. lia.
Qed.

(** X4: two parseable strings a whole number of weeks apart have the same
    day name. *)
Theorem getDayName_weeks_later (date date' : string) (t k : Z) :
  parses_to DateParse date t ->
  parses_to DateParse date' (t + 7 * k * ES.msPerDay) ->
  getDayName DateParse date' = getDayName DateParse date.
Proof.
  unfold parses_to, getDayName, JSDate.getUTCDay, JSDate.utc_field. intros -> ->.
  replace (t + 7 * k * ES.msPerDay) with (t + (7 * k) * ES.msPerDay) by lia.
  rewrite WeekDay_add_days.
  pose proof (WeekDay_range t) as Hw.
  replace ((ES.WeekDay t + 7 * k) mod 7) with (ES.WeekDay t); [reflexivity |].
  rewrite Z.mul_comm, Z.mod_add by lia. symmetry. apply Z.mod_small. exact Hw.
Qed.

(** *** getQuarter *)

(** X5: for a valid date [getQuarter] is [floor(month / 3) + 1] of the local
    month (0 to 11), a number from 1 to 4. *)
Theorem getQuarter_by_month (t : Z) :
  in_time_range t ->
  getQuarter LocalTZA (JSDate.mkDate (Some t))
  = ES.MonthFromTime (JSDate.LocalTime LocalTZA t) / 3 + 1 /\
  1 <= getQuarter LocalTZA (JSDate.mkDate (Some t)) <= 4.
Proof.
  intros Ht.
  unfold getQuarter, JSDate.new_date, JSDate.new_number, JSDate.getMonth,
    JSDate.local_field.
  cbn [JSDate.DateValue]. rewrite (TimeClip_in_range t Ht). cbn [JSDate.DateValue].
  pose proof (MonthFromTime_range (JSDate.LocalTime LocalTZA t)) as Hm.
  generalize dependent (ES.MonthFromTime (JSDate.LocalTime LocalTZA t)). intros m Hm.
  unfold num_lt, num_gt, num_lt.
  destruct (Z.ltb_spec m 3); [split; [Z.div_mod_to_equations |]; lia |].
  destruct (Z.ltb_spec 2 m); [| lia].
  destruct (Z.ltb_spec m 6); cbn [andb]; [split; [Z.div_mod_to_equations |]; lia |].
  destruct (Z.ltb_spec 5 m); [| lia].
  destruct (Z.ltb_spec m 9); cbn [andb]; split; try (Z.div_mod_to_equations; lia); lia.
Qed.

(** *** Invalid dates and unparseable strings *)

(** X6: on an Invalid Date [getTime], [getQuarter] and [isLeapYear] still
    answer: 'NaN:NaN:NaN', the quarter 4 and [false]. *)
Theorem invalid_date_answers :
  getTime LocalTZA (JSDate.mkDate NaN) = "NaN:NaN:NaN" /\
  getQuarter LocalTZA (JSDate.mkDate NaN) = 4 /\
  isLeapYear LocalTZA (JSDate.mkDate NaN) = false.
Proof. repeat split. Qed.

(** X7: on an Invalid Date [getNextFriday] returns an Invalid Date and
    [getWeekNumberByDate] returns NaN. *)
Theorem invalid_date_propagates :
  getNextFriday LocalTZA (JSDate.mkDate NaN) = JSDate.mkDate NaN /\
  getWeekNumberByDate LocalTZA (JSDate.mkDate NaN) = NaN.
Proof. split; reflexivity. Qed.

(** X8: for a string that [new Date] cannot hold, [dateToTimestamp] is NaN,
    [getDayName] is [undefined] and [formatDate] is the string
    'NaN/NaN/NaN, NaN:NaN:NaN PM'. *)
Theorem unparseable_string_answers (date : string) :
  unparseable DateParse date ->
  dateToTimestamp DateParse date = NaN /\
  getDayName DateParse date = None /\
  formatDate LocalTZA DateParse date = "NaN/NaN/NaN, NaN:NaN:NaN PM".
Proof.
  unfold unparseable. intros H.
  unfold dateToTimestamp, getDayName, formatDate, JSDate.valueOf, JSDate.getUTCDay,
    JSDate.getFullYear, JSDate.getUTCMonth, JSDate.getUTCDate, JSDate.getUTCHours,
    JSDate.getUTCMinutes, JSDate.getUTCSeconds, JSDate.local_field, JSDate.utc_field.
  rewrite H. repeat split.
Qed.

(** *** getCountDaysInMonth *)

(** X9: for a month from 1 to 12, [getCountDaysInMonth] is the length of the
    month in the Gregorian calendar whenever the month is not February, the
    year is not a leap year, or the year is 2024. *)
Theorem getCountDaysInMonth_calendar (month year : Z) :
  1 <= month <= 12 ->
  month <> 2 \/ ES.DaysInYear year = 365 \/ year = 2024 ->
  getCountDaysInMonth month year = Some (ES.DaysInMonth year month).
Proof.
  intros Hm Hc. unfold getCountDaysInMonth, ES.DaysInMonth.
  destruct (Z.eqb_spec year 2024) as [-> | Hy].
  - destruct month as [| p | p]; try lia.
    do 4 (try destruct p as [p | p |]); try lia; reflexivity.
  - cbn [andb].
    destruct month as [| p | p]; try lia.
    do 4 (try destruct p as [p | p |]); try lia; try reflexivity.
    destruct Hc as [Hc | [Hc | Hc]]; try lia. rewrite Hc. reflexivity.
Qed.

(** *** getCountDaysOnPeriod *)

(** X12: [getCountDaysOnPeriod] is NaN when either string cannot be held by
    [new Date]. *)
Theorem getCountDaysOnPeriod_unparseable (dateStart dateEnd : string) :
  unparseable DateParse dateStart \/ unparseable DateParse dateEnd ->
  getCountDaysOnPeriod DateParse dateStart dateEnd = None.
Proof.
  unfold unparseable, getCountDaysOnPeriod, JSDate.getTime.
  intros [H | H]; rewrite H; [| reflexivity].
  destruct (JSDate.DateValue (JSDate.new_string DateParse dateEnd)); reflexivity.
Qed.

(** *** isDateInPeriod *)

(** X13: [isDateInPeriod] answers true only if all three strings are
    parseable and the date lies between start and end; so it is false for
    an unparseable string and for a period whose start is after its end. *)
Theorem isDateInPeriod_true_inv (date : string) (period : DatePeriod) :
  isDateInPeriod DateParse date period = true ->
  exists ts te td : Z,
    parses_to DateParse (period_start period) ts /\
    parses_to DateParse (period_end period) te /\
    parses_to DateParse date td /\
    ts <= td <= te.
Proof.
  unfold isDateInPeriod, parses_to, JSDate.getTime, num_ge, num_le. intros H.
  destruct (JSDate.DateValue (JSDate.new_string DateParse (period_start period)))
    as [ts |]; [| discriminate].
  destruct (JSDate.DateValue (JSDate.new_string DateParse date))
    as [td |]; [| discriminate].
  destruct (JSDate.DateValue (JSDate.new_string DateParse (period_end period)))
    as [te |]; [| rewrite andb_false_r in H; discriminate].
  apply andb_true_iff in H. rewrite !Z.leb_le in H.
  exists ts, te, td. repeat split; lia.
Qed.

(** X14: [isDateInPeriod] is the comparison of the three timestamps that
    [dateToTimestamp] gives, for all strings. *)
Theorem isDateInPeriod_by_timestamps (date : string) (period : DatePeriod) :
  isDateInPeriod DateParse date period
  = num_le (dateToTimestamp DateParse (period_start period))
           (dateToTimestamp DateParse date)
    && num_le (dateToTimestamp DateParse date)
              (dateToTimestamp DateParse (period_end period)).
Proof.
  unfold isDateInPeriod, dateToTimestamp, JSDate.getTime, JSDate.valueOf, num_ge.
  change (JSDate.DateValue (JSDate.new_number (Some 0))) with (Some 0).
  assert (E : forall n : Number, num_sub n (Some 0) = n).
  { intros [x |]; cbn; [f_equal; lia | reflexivity]. }
  rewrite !E. reflexivity.
Qed.

(** *** getNextFriday *)

(** X15: for a valid date at least two weeks before the last time value,
    [getNextFriday] returns a later date at most 7 days away, and applied to
    its own result it returns the date exactly 7 days after that result. *)
Theorem getNextFriday_twice (t : Z) :
  in_time_range t ->
  t + 14 * ES.msPerDay <= ES.maxTime ->
  exists r : Z,
    t < r <= t + 7 * ES.msPerDay /\
    getNextFriday LocalTZA (JSDate.mkDate (Some t)) = JSDate.mkDate (Some r) /\
    getNextFriday LocalTZA (getNextFriday LocalTZA (JSDate.mkDate (Some t)))
    = JSDate.mkDate (Some (r + 7 * ES.msPerDay)).
Proof.
  intros Ht Hmax.
  destruct (getNextFriday_offset LocalTZA t Ht) as (k & Hk & Hfri & _ & _ & _ & Hres).
  set (r := t + k * ES.msPerDay) in *.
  assert (Hr : in_time_range r)
    by (unfold in_time_range, r, ES.msPerDay, ES.maxTime in *; lia).
  rewrite (TimeClip_in_range r Hr) in Hres.
  exists r. split; [unfold r, ES.msPerDay; lia |]. split; [exact Hres |].
  rewrite Hres.
  destruct (getNextFriday_offset LocalTZA r Hr) as (k' & _ & _ & _ & Hon & _ & Hres').
  assert (Hw : ES.WeekDay (JSDate.LocalTime LocalTZA r) = 5).
  { replace (JSDate.LocalTime LocalTZA r)
      with (JSDate.LocalTime LocalTZA t + k * ES.msPerDay)
      by (unfold JSDate.LocalTime, r; lia).
    rewrite WeekDay_add_days. exact Hfri. }
  rewrite (Hon Hw) in Hres'. rewrite Hres'. f_equal.
  apply TimeClip_in_range.
  unfold in_time_range, r, ES.msPerDay, ES.maxTime in *. lia.
Qed.

(** X16: [getNextFriday] keeps the local time of day: [getTime] of its
    result is [getTime] of the input (when the result is a valid date). *)
Theorem getTime_getNextFriday (t : Z) :
  in_time_range t ->
  t + 7 * ES.msPerDay <= ES.maxTime ->
  getTime LocalTZA (getNextFriday LocalTZA (JSDate.mkDate (Some t)))
  = getTime LocalTZA (JSDate.mkDate (Some t)).
Proof.
  intros Ht Hmax.
  destruct (getNextFriday_offset LocalTZA t Ht) as (k & Hk & _ & _ & _ & _ & Hres).
  rewrite Hres, TimeClip_in_range
    by (unfold in_time_range, ES.msPerDay, ES.maxTime in *; lia).
  unfold getTime, JSDate.getHours, JSDate.getMinutes, JSDate.getSeconds,
    JSDate.local_field. cbn [JSDate.DateValue].
  replace (JSDate.LocalTime LocalTZA (t + k * ES.msPerDay))
    with (JSDate.LocalTime LocalTZA t + k * ES.msPerDay)
    by (unfold JSDate.LocalTime; lia).
  set (lt := JSDate.LocalTime LocalTZA t).
  assert (Hh : ES.HourFromTime (lt + k * ES.msPerDay) = ES.HourFromTime lt).
  { unfold ES.HourFromTime, ES.msPerDay, ES.msPerHour, ES.HoursPerDay.
    replace (lt + k * 86400000) with (lt + (k * 24) * 3600000) by lia.
    rewrite Z.div_add by lia. apply Z.mod_add. lia. }
  assert (Hm : ES.MinFromTime (lt + k * ES.msPerDay) = ES.MinFromTime lt).
  { unfold ES.MinFromTime, ES.msPerDay, ES.msPerMinute, ES.MinutesPerHour.
    replace (lt + k * 86400000) with (lt + (k * 1440) * 60000) by lia.
    rewrite Z.div_add by lia.
    replace (k * 1440) with ((k * 24) * 60) by lia. apply Z.mod_add. lia. }
  assert (Hs : ES.SecFromTime (lt + k * ES.msPerDay) = ES.SecFromTime lt).
  { unfold ES.SecFromTime, ES.msPerDay, ES.msPerSecond, ES.SecondsPerMinute.
    replace (lt + k * 86400000) with (lt + (k * 86400) * 1000) by lia.
    rewrite Z.div_add by lia.
    replace (k * 86400) with ((k * 1440) * 60) by lia. apply Z.mod_add. lia. }
  rewrite Hh, Hm, Hs. reflexivity.
Qed.

(** *** formatDate *)

(** X17: for a parseable input whose UTC hour [h] is not 0, [formatDate]
    shows the hour of the 12-hour clock, [(h - 1) mod 12 + 1], unpadded, with
    AM before noon and PM from noon on. *)
Theorem formatDate_12_hour_clock (date : string) (t : Z) :
  parses_to DateParse date t ->
  1 <= ES.HourFromTime t ->
  formatDate LocalTZA DateParse date
  = Z_toString (ES.MonthFromTime t + 1) ++ "/" ++ Z_toString (ES.DateFromTime t)
    ++ "/" ++ Z_toString (ES.YearFromTime (JSDate.LocalTime LocalTZA t)) ++ ", "
    ++ Z_toString ((ES.HourFromTime t - 1) mod 12 + 1)
    ++ ":" ++ pad2 (ES.MinFromTime t) ++ ":" ++ pad2 (ES.SecFromTime t)
    ++ " " ++ (if ES.HourFromTime t <? 12 then "AM" else "PM").
Proof.
  intros Hd Hh. rewrite (formatDate_fields LocalTZA DateParse date t Hd).
  pose proof (HourFromTime_range t) as Hr.
  replace (if 12 <? ES.HourFromTime t then ES.HourFromTime t - 12 else ES.HourFromTime t)
    with ((ES.HourFromTime t - 1) mod 12 + 1); [reflexivity |].
  destruct (Z.ltb_spec 12 (ES.HourFromTime t)); Z.div_mod_to_equations; lia.
Qed.

(** *** getWeekNumberByDate *)

(** X18: for a valid date whose local year is outside 0..99 and whose
    "January 0" is a time value, [getWeekNumberByDate] is between 1 and 54. *)
Theorem getWeekNumberByDate_range (t : Z) :
  let y := ES.YearFromTime (JSDate.LocalTime LocalTZA t) in
  let jan0 := JSDate.UTC LocalTZA ((ES.DayFromYear y - 1) * ES.msPerDay) in
  in_time_range t ->
  ~ (0 <= y <= 99) ->
  in_time_range jan0 ->
  exists w : Z,
    getWeekNumberByDate LocalTZA (JSDate.mkDate (Some t)) = Some w /\ 1 <= w <= 54.
Proof.
  intros y jan0 Ht Hy Hj.
  rewrite (getWeekNumberByDate_by_day LocalTZA t Ht Hy Hj).
  eexists. split; [reflexivity |].
  pose proof (DayWithinYear_range (JSDate.LocalTime LocalTZA t)) as Hd.
  pose proof (DaysInYear_cases (ES.YearFromTime (JSDate.LocalTime LocalTZA t))) as Hc.
  unfold ES.DayWithinYear in Hd. fold y jan0 in Hd, Hc |- *.
  pose proof (WeekDay_range (JSDate.LocalTime LocalTZA jan0)) as Hw.
  generalize dependent (ES.WeekDay (JSDate.LocalTime LocalTZA jan0)). intros wd Hw.
  generalize dependent (ES.Day (JSDate.LocalTime LocalTZA t)). intros d Hd.
  generalize dependent (ES.DayFromYear y). intros f _ _ Hd.
  generalize dependent (ES.DaysInYear y). intros diy Hc Hd.
  destruct (ES.TimeWithinDay (JSDate.LocalTime LocalTZA t) =? 0);
    Z.div_mod_to_equations; lia.
Qed.

(** X19: at local midnight of January 1 of a year outside 0..99 (whose
    "January 0" is a time value) the week number is 1. *)
Theorem getWeekNumberByDate_new_year (t : Z) :
  let lt := JSDate.LocalTime LocalTZA t in
  let y := ES.YearFromTime lt in
  let jan0 := JSDate.UTC LocalTZA ((ES.DayFromYear y - 1) * ES.msPerDay) in
  in_time_range t ->
  ~ (0 <= y <= 99) ->
  in_time_range jan0 ->
  ES.DayWithinYear lt = 0 ->
  ES.TimeWithinDay lt = 0 ->
  getWeekNumberByDate LocalTZA (JSDate.mkDate (Some t)) = Some 1.
Proof.
  intros lt y jan0 Ht Hy Hj Hd Hs.
  rewrite (getWeekNumberByDate_by_day LocalTZA t Ht Hy Hj).
  fold lt y jan0. rewrite Hs. cbn [Z.eqb]. f_equal.
  pose proof (WeekDay_range (JSDate.LocalTime LocalTZA jan0)) as Hw.
  unfold ES.DayWithinYear in Hd. fold y in Hd.
  generalize dependent (ES.WeekDay (JSDate.LocalTime LocalTZA jan0)). intros wd Hw.
  replace (ES.Day lt - ES.DayFromYear y + 1 + wd + 6) with (wd + 7) by lia.
  Z.div_mod_to_equations. lia.
Qed.

(** X20: from one local midnight to the next within a year outside 0..99
    (whose "January 0" is a time value), the week number goes up by one when
    the new day is a Monday and stays the same otherwise. *)
Theorem getWeekNumberByDate_next_day (t : Z) :
  let lt := JSDate.LocalTime LocalTZA t in
  let y := ES.YearFromTime lt in
  let jan0 := JSDate.UTC LocalTZA ((ES.DayFromYear y - 1) * ES.msPerDay) in
  in_time_range t ->
  in_time_range (t + ES.msPerDay) ->
  ~ (0 <= y <= 99) ->
  in_time_range jan0 ->
  ES.TimeWithinDay lt = 0 ->
  ES.DayWithinYear lt + 1 < ES.DaysInYear y ->
  exists w : Z,
    getWeekNumberByDate LocalTZA (JSDate.mkDate (Some t)) = Some w /\
    getWeekNumberByDate LocalTZA (JSDate.mkDate (Some (t + ES.msPerDay)))
    = Some (w + (if ES.WeekDay (JSDate.LocalTime LocalTZA (t + ES.msPerDay)) =? 1
                 then 1 else 0)).
Proof.
  intros lt y jan0 Ht Ht' Hy Hj Hs Hlast.
  assert (Hlt' : JSDate.LocalTime LocalTZA (t + ES.msPerDay) = lt + 1 * ES.msPerDay)
    by (unfold lt, JSDate.LocalTime; lia).
  assert (Hday' : ES.Day (lt + 1 * ES.msPerDay) = ES.Day lt + 1)
    by apply Day_add_days.
  assert (Hy' : ES.YearFromTime (lt + 1 * ES.msPerDay) = y).
  { unfold ES.YearFromTime. rewrite Hday'. apply YearFromDay_unique.
    pose proof (DayWithinYear_range lt) as Hd. unfold ES.DayWithinYear in *.
    fold y in Hd, Hlast. rewrite DayFromYear_succ. lia. }
  pose proof (getWeekNumberByDate_by_day LocalTZA t Ht Hy Hj) as E.
  pose proof (getWeekNumberByDate_by_day LocalTZA (t + ES.msPerDay) Ht') as E'.
  cbv zeta in E'. rewrite Hlt', Hy' in E'. specialize (E' Hy Hj).
  rewrite TimeWithinDay_add_days, Hday' in E'.
  fold lt y in E. fold lt in E'. rewrite Hs in E, E'. cbn [Z.eqb] in E, E'.
  eexists. split; [exact E |]. rewrite E'. f_equal.
  assert (Hw' : ES.WeekDay (lt + 1 * ES.msPerDay) = (ES.Day lt + 1 + 4) mod 7)
    by (unfold ES.WeekDay; rewrite Hday'; reflexivity).
  rewrite Hlt', Hw'. clear Hw'.
  set (wd := ES.WeekDay (JSDate.LocalTime LocalTZA
    (JSDate.UTC LocalTZA ((ES.DayFromYear y - 1) * ES.msPerDay)))).
  assert (Hwd : wd = (ES.DayFromYear y - 1 + 4) mod 7).
  { unfold wd, ES.WeekDay. f_equal. f_equal.
    unfold JSDate.LocalTime, JSDate.UTC, ES.Day.
    replace ((ES.DayFromYear y - 1) * ES.msPerDay - LocalTZA + LocalTZA)
      with ((ES.DayFromYear y - 1) * ES.msPerDay) by lia.
    unfold ES.msPerDay. apply Z.div_mul. lia. }
  rewrite Hwd. clear Hwd wd E E' Hday' Hy' Hlt' Hlast.
  remember (ES.Day lt) as d eqn:Ed. remember (ES.DayFromYear y) as f eqn:Ef.
  clear.
  destruct (Z.eqb_spec ((d + 1 + 4) mod 7) 1); Z.div_mod_to_equations; lia.
Qed.

(** *** getCountWeekendsInMonth *)

(** [new Date(year, mn, d)] for a year outside 0..99, when it is in range. *)
Lemma new_fields_value (year mn d : Z) :
  ~ (0 <= year <= 99) ->
  in_time_range (JSDate.UTC LocalTZA (ES.MakeDate (ES.MakeDay year mn d) 0)) ->
  JSDate.DateValue (JSDate.new_fields LocalTZA (Some year) mn d)
  = Some (JSDate.UTC LocalTZA (ES.MakeDate (ES.MakeDay year mn d) 0)).
Proof.
  intros Hy Hr. unfold JSDate.new_fields. cbn [JSDate.DateValue].
  replace ((0 <=? year) && (year <=? 99)) with false
    by (symmetry; apply andb_false_iff;
        destruct (Z.leb_spec 0 year); destruct (Z.leb_spec year 99); auto; lia).
  change (ES.MakeTime 0 0 0 0) with 0.
  apply TimeClip_in_range. exact Hr.
Qed.

Lemma calendar_day_in_range (year mn d : Z) :
  - ES.msPerDay <= LocalTZA <= ES.msPerDay ->
  -270000 <= year <= 275000 ->
  0 <= mn <= 12 ->
  0 <= d <= 31 ->
  in_time_range (JSDate.UTC LocalTZA (ES.MakeDate (ES.MakeDay year mn d) 0)).
Proof.
  intros Htz Hy Hm Hd.
  assert (Hday : ES.DayFromYear year - 1 <= ES.MakeDay year mn d
                 <= ES.DayFromYear year + 400).
  { destruct (Z.eq_dec mn 12) as [-> | Hne].
    - unfold ES.MakeDay. change (12 / 12) with 1. change (12 mod 12) with 0.
      rewrite DayFromYear_succ. cbn [ES.DayInYearOfMonth].
      destruct (DaysInYear_cases year) as [E | E]; rewrite ?E;
        destruct (DaysInYear_cases (year + 1)) as [E' | E']; rewrite ?E'; cbn; lia.
    - rewrite MakeDay_month_day by lia.
      unfold ES.DayInYearOfMonth.
      destruct (ES.DaysInYear year =? 366);
        destruct mn as [| p | p]; try lia;
        do 4 (try destruct p as [p | p |]); lia. }
  pose proof (DayFromYear_bounds year ltac:(lia)) as Hb.
  unfold in_time_range, JSDate.UTC, ES.MakeDate, ES.maxTime, ES.msPerDay in *. lia.
Qed.

Lemma new_fields_weekday (year mn d : Z) :
  ~ (0 <= year <= 99) ->
  in_time_range (JSDate.UTC LocalTZA (ES.MakeDate (ES.MakeDay year mn d) 0)) ->
  JSDate.getDay LocalTZA (JSDate.new_fields LocalTZA (Some year) mn d)
  = Some (ES.WeekDay (ES.MakeDate (ES.MakeDay year mn d) 0)).
Proof.
  intros Hy Hr. unfold JSDate.getDay, JSDate.local_field.
  rewrite (new_fields_value year mn d Hy Hr). do 2 f_equal.
  unfold JSDate.LocalTime, JSDate.UTC. lia.
Qed.

Lemma calendar_weekends_range (y m : Z) :
  1 <= m <= 12 -> 8 <= calendar_weekends y m <= 10.
Proof.
  intros Hm. unfold calendar_weekends.
  set (w := (ES.MakeDay y (m - 1) 0 + 4) mod 7).
  rewrite (filter_ext _ (fun i : nat => is_weekend ((w + Z.of_nat i) mod 7))).
  - apply weekends_in_run.
    + apply Z.mod_pos_bound. lia.
    + pose proof (DaysInMonth_range y m). lia.
  - intros i. f_equal. unfold ES.WeekDay, ES.Day, ES.MakeDate, w.
    rewrite Z.add_0_r. unfold ES.msPerDay at 1 2. rewrite Z.div_mul by lia.
    rewrite Zplus_mod_idemp_l. f_equal.
    rewrite !MakeDay_month_day by lia. lia.
Qed.

(** X21: for a month from 1 to 12 of a year outside 0..99 (and well inside
    the range of time values), [getCountWeekendsInMonth] is the number of
    Saturdays and Sundays of that month of the calendar, whatever the time
    zone offset (up to a day), and it is 8, 9 or 10. *)
Theorem getCountWeekendsInMonth_calendar (month year : Z) :
  - ES.msPerDay <= LocalTZA <= ES.msPerDay ->
  -270000 <= year <= 275000 ->
  ~ (0 <= year <= 99) ->
  1 <= month <= 12 ->
  getCountWeekendsInMonth LocalTZA month year = calendar_weekends year month /\
  8 <= getCountWeekendsInMonth LocalTZA month year <= 10.
Proof.
  intros Htz Hyr Hy Hm.
  assert (E : getCountWeekendsInMonth LocalTZA month year = calendar_weekends year month).
  { unfold getCountWeekendsInMonth, JSDate.getDate, JSDate.local_field.
    rewrite (new_fields_value year month 0 Hy)
      by (apply calendar_day_in_range; lia).
    replace (JSDate.LocalTime LocalTZA
               (JSDate.UTC LocalTZA (ES.MakeDate (ES.MakeDay year month 0) 0)))
      with (ES.MakeDate (ES.MakeDay year (month - 1) (ES.DaysInMonth year month)) 0)
      by (rewrite MakeDay_day_zero by lia; unfold JSDate.LocalTime, JSDate.UTC; lia).
    pose proof (DaysInMonth_range year month) as Hn.
    assert (Hback : ES.DateFromTime
              (ES.MakeDate (ES.MakeDay year (month - 1) (ES.DaysInMonth year month)) 0)
            = ES.DaysInMonth year month).
    { apply (MakeDay_fields_back year (month - 1) (ES.DaysInMonth year month)); [lia |].
      replace (month - 1 + 1) with month by lia. lia. }
    rewrite Hback.
    rewrite (fold_left_ext_in _
      (fun acc i =>
         if is_weekend
              (ES.WeekDay (ES.MakeDate (ES.MakeDay year (month - 1) (Z.of_nat i)) 0))
         then acc + 1 else acc)).
    - rewrite fold_left_count. reflexivity.
    - intros acc i Hi. apply in_seq in Hi.
      rewrite (new_fields_weekday year (month - 1) (Z.of_nat i) Hy)
        by (apply calendar_day_in_range; lia).
      reflexivity. }
  split; [exact E |]. rewrite E. apply calendar_weekends_range. exact Hm.
Qed.

(** X22: a year from 0 to 99 is read as 1900 + year. *)
Theorem getCountWeekendsInMonth_two_digit_year (month year : Z) :
  0 <= year <= 99 ->
  getCountWeekendsInMonth LocalTZA month year
  = getCountWeekendsInMonth LocalTZA month (1900 + year).
Proof.
  intros Hy.
  assert (E : forall mn d,
             JSDate.new_fields LocalTZA (Some year) mn d
             = JSDate.new_fields LocalTZA (Some (1900 + year)) mn d).
  { intros mn d. unfold JSDate.new_fields.
    replace ((0 <=? year) && (year <=? 99)) with true
      by (symmetry; apply andb_true_iff; split; apply Z.leb_le; lia).
    replace ((0 <=? 1900 + year) && (1900 + year <=? 99)) with false
      by (symmetry; apply andb_false_iff; right; apply Z.leb_gt; lia).
    reflexivity. }
  unfold getCountWeekendsInMonth. rewrite E.
  destruct (JSDate.getDate LocalTZA
              (JSDate.new_fields LocalTZA (Some (1900 + year)) month 0));
    [| reflexivity].
  apply fold_left_ext_in. intros acc i _. rewrite E. reflexivity.
Qed.

(** X23: a month number 12 higher is the same month of the next year (for
    years whose neighbours are not in 0..99). *)
Theorem getCountWeekendsInMonth_next_year (month year : Z) :
  ~ (0 <= year <= 99) ->
  ~ (0 <= year + 1 <= 99) ->
  getCountWeekendsInMonth LocalTZA (month + 12) year
  = getCountWeekendsInMonth LocalTZA month (year + 1).
Proof.
  intros Hy Hy'.
  assert (E : forall mn d,
             JSDate.new_fields LocalTZA (Some year) (mn + 12) d
             = JSDate.new_fields LocalTZA (Some (year + 1)) mn d).
  { intros mn d. unfold JSDate.new_fields.
    replace ((0 <=? year) && (year <=? 99)) with false
      by (symmetry; apply andb_false_iff;
          destruct (Z.leb_spec 0 year); destruct (Z.leb_spec year 99); auto; lia).
    replace ((0 <=? year + 1) && (year + 1 <=? 99)) with false
      by (symmetry; apply andb_false_iff;
          destruct (Z.leb_spec 0 (year + 1)); destruct (Z.leb_spec (year + 1) 99);
          auto; lia).
    unfold ES.MakeDay.
    replace ((mn + 12) / 12) with (mn / 12 + 1)
      by (replace (mn + 12) with (mn + 1 * 12) by lia; rewrite Z.div_add by lia; lia).
    replace ((mn + 12) mod 12) with (mn mod 12)
      by (replace (mn + 12) with (mn + 1 * 12) by lia; rewrite Z.mod_add by lia; lia).
    replace (year + (mn / 12 + 1)) with (year + 1 + mn / 12) by lia.
    reflexivity. }
  unfold getCountWeekendsInMonth. rewrite E.
  destruct (JSDate.getDate LocalTZA (JSDate.new_fields LocalTZA (Some (year + 1)) month 0));
    [| reflexivity].
  apply fold_left_ext_in. intros acc i _.
  replace (month + 12 - 1) with (month - 1 + 12) by lia. rewrite E. reflexivity.
Qed.

End Further.

(** ** The further properties at concrete inputs *)

(** X3 at '2024-01-30T00:00:00.000Z', a Tuesday. *)
Lemma getDayName_weekday_witness :
  exists name : string,
    getDayName ISO.parse "2024-01-30T00:00:00.000Z" = Some name /\
    nth_error weekday_names (Z.to_nat (ES.WeekDay 1706572800000)) = Some name /\
    In name weekday_names.
Proof.
  apply (getDayName_weekday ISO.parse "2024-01-30T00:00:00.000Z" 1706572800000).
  vm_compute. reflexivity.
Defined.

(** X4 at two Tuesdays two weeks apart. *)
Lemma getDayName_weeks_later_witness :
  getDayName ISO.parse "2024-02-13" = getDayName ISO.parse "2024-01-30T00:00:00.000Z".
Proof.
  apply (getDayName_weeks_later ISO.parse "2024-01-30T00:00:00.000Z" "2024-02-13"
           1706572800000 2); vm_compute; reflexivity.
Defined.

(** X5 at 2024-06-01: month 5, the second quarter. *)
Lemma getQuarter_by_month_witness :
  getQuarter 0 (JSDate.mkDate (Some 1717200000000))
  = ES.MonthFromTime (JSDate.LocalTime 0 1717200000000) / 3 + 1 /\
  1 <= getQuarter 0 (JSDate.mkDate (Some 1717200000000)) <= 4.
Proof.
  apply (getQuarter_by_month 0 1717200000000).
  unfold in_time_range, ES.maxTime. lia.
Defined.

(** X8 at a string that is no date. *)
Lemma unparseable_string_answers_witness :
  dateToTimestamp ISO.parse "next friday" = NaN /\
  getDayName ISO.parse "next friday" = None /\
  formatDate 0 ISO.parse "next friday" = "NaN/NaN/NaN, NaN:NaN:NaN PM".
Proof.
  apply (unparseable_string_answers 0 ISO.parse "next friday").
  vm_compute. reflexivity.
Defined.

(** X9 at February 2023. *)
Lemma getCountDaysInMonth_calendar_witness :
  getCountDaysInMonth 2 2023 = Some (ES.DaysInMonth 2023 2).
Proof.
  apply (getCountDaysInMonth_calendar 2 2023); [lia |].
  right. left. reflexivity.
Defined.

(** X12 at a start that is no date. *)
Lemma getCountDaysOnPeriod_unparseable_witness :
  getCountDaysOnPeriod ISO.parse "yesterday" "2024-02-10" = None.
Proof.
  apply (getCountDaysOnPeriod_unparseable ISO.parse "yesterday" "2024-02-10").
  left. vm_compute. reflexivity.
Defined.

(** X13 at a date inside the period. *)
Lemma isDateInPeriod_true_inv_witness :
  exists ts te td : Z,
    parses_to ISO.parse "2024-02-01" ts /\
    parses_to ISO.parse "2024-03-02" te /\
    parses_to ISO.parse "2024-02-10" td /\
    ts <= td <= te.
Proof.
  apply (isDateInPeriod_true_inv ISO.parse "2024-02-10"
           (mkPeriod "2024-02-01" "2024-03-02")).
  vm_compute. reflexivity.
Defined.

(** X15 at Saturday 2024-02-03, 10:20:30. *)
Lemma getNextFriday_twice_witness :
  exists r : Z,
    1706955630000 < r <= 1706955630000 + 7 * ES.msPerDay /\
    getNextFriday 0 (JSDate.mkDate (Some 1706955630000)) = JSDate.mkDate (Some r) /\
    getNextFriday 0 (getNextFriday 0 (JSDate.mkDate (Some 1706955630000)))
    = JSDate.mkDate (Some (r + 7 * ES.msPerDay)).
Proof.
  apply (getNextFriday_twice 0 1706955630000);
    unfold in_time_range, ES.maxTime, ES.msPerDay; lia.
Defined.

(** X16 at Saturday 2024-02-03, 10:20:30. *)
Lemma getTime_getNextFriday_witness :
  getTime 0 (getNextFriday 0 (JSDate.mkDate (Some 1706955630000)))
  = getTime 0 (JSDate.mkDate (Some 1706955630000)).
Proof.
  apply (getTime_getNextFriday 0 1706955630000);
    unfold in_time_range, ES.maxTime, ES.msPerDay; lia.
Defined.

(** X17 at 15:00 UTC: 3 PM. *)
Lemma formatDate_12_hour_clock_witness :
  formatDate 0 ISO.parse "2024-02-01T15:00:00.000Z" = "2/1/2024, 3:00:00 PM".
Proof.
  apply (formatDate_12_hour_clock 0 ISO.parse "2024-02-01T15:00:00.000Z" 1706799600000);
    [vm_compute; reflexivity | vm_compute; discriminate].
Defined.

(** X18 at Sunday 2024-01-07. *)
Lemma getWeekNumberByDate_range_witness :
  exists w : Z,
    getWeekNumberByDate 0 (JSDate.mkDate (Some 1704585600000)) = Some w /\ 1 <= w <= 54.
Proof.
  apply (getWeekNumberByDate_range 0 1704585600000).
  - unfold in_time_range, ES.maxTime. lia.
  - vm_compute. intros [_ H]. apply H. reflexivity.
  - vm_compute. discriminate.
Defined.

(** X19 at 2024-01-01T00:00:00Z. *)
Lemma getWeekNumberByDate_new_year_witness :
  getWeekNumberByDate 0 (JSDate.mkDate (Some 1704067200000)) = Some 1.
Proof.
  apply (getWeekNumberByDate_new_year 0 1704067200000).
  - unfold in_time_range, ES.maxTime. lia.
  - vm_compute. intros [_ H]. apply H. reflexivity.
  - vm_compute. discriminate.
  - vm_compute. reflexivity.
  - vm_compute. reflexivity.
Defined.

(** X20 from Sunday 2024-01-07 to Monday 2024-01-08: week 1, then week 2. *)
Lemma getWeekNumberByDate_next_day_witness :
  exists w : Z,
    getWeekNumberByDate 0 (JSDate.mkDate (Some 1704585600000)) = Some w /\
    getWeekNumberByDate 0 (JSDate.mkDate (Some (1704585600000 + ES.msPerDay)))
    = Some (w + (if ES.WeekDay (JSDate.LocalTime 0 (1704585600000 + ES.msPerDay)) =? 1
                 then 1 else 0)).
Proof.
  apply (getWeekNumberByDate_next_day 0 1704585600000).
  - unfold in_time_range, ES.maxTime. lia.
  - unfold in_time_range, ES.maxTime, ES.msPerDay. lia.
  - vm_compute. intros [_ H]. apply H. reflexivity.
  - vm_compute. discriminate.
  - vm_compute. reflexivity.
  - vm_compute. reflexivity.
Defined.

(** X21 at January 2024: 8 weekend days. *)
Lemma getCountWeekendsInMonth_calendar_witness :
  getCountWeekendsInMonth 0 1 2024 = calendar_weekends 2024 1 /\
  8 <= getCountWeekendsInMonth 0 1 2024 <= 10.
Proof.
  apply (getCountWeekendsInMonth_calendar 0 1 2024); unfold ES.msPerDay; lia.
Defined.

(** X22 at May of the year 22, read as May 1922. *)
Lemma getCountWeekendsInMonth_two_digit_year_witness :
  getCountWeekendsInMonth 0 5 22 = getCountWeekendsInMonth 0 5 (1900 + 22).
Proof. apply (getCountWeekendsInMonth_two_digit_year 0 5 22). lia. Defined.

(** X23 at month 13 of 2023, which is January 2024. *)
Lemma getCountWeekendsInMonth_next_year_witness :
  getCountWeekendsInMonth 0 (1 + 12) 2023 = getCountWeekendsInMonth 0 1 (2023 + 1).
Proof. apply (getCountWeekendsInMonth_next_year 0 1 2023); lia. Defined.
